(** * DashGit: unification and classification engine

    A shallow embedding of the DashGit sources:
    - [src/unnamed/part_000]   : the shared types ([types.ts]);
    - [src/unnamed/part_002]   : the GitHub adapter ([adapters/github.ts],
                                 most recent version);
    - [src/src/adapters/gitlab.ts] : the GitLab adapter (most recent version);
    - [src/src/App.tsx]        : the aggregator ([fetchData]) and the
                                 classifier ([sections]).

    JavaScript values are modelled as follows.  A field that the GraphQL
    payload may omit or set to [null] is an [option]; [x || d] on a string
    is [js_or]; a [Map] or [Set] is an association list in insertion order
    (JavaScript iterates both in insertion order); a thrown exception, or a
    rejected promise, is the left injection of [Exc]; a [Date] is its
    [getTime()] in milliseconds, as a [Z]. *)

From Stdlib Require Import String Ascii List Bool ZArith Lia.
From Stdlib Require Import Sorting.Sorted Sorting.Permutation.
From Stdlib Require Import Decimal DecimalString DecimalN.
Import ListNotations.
Open Scope string_scope.

(** ** JavaScript helpers *)

(** A computation that may throw: [inl msg] is a thrown error (or a rejected
    promise), [inr v] a normal result. *)
Definition Exc (A : Type) : Type := (string + A)%type.

Definition ret {A} (a : A) : Exc A := inr a.
Definition throw {A} (msg : string) : Exc A := inl msg.
Definition bind {A B} (m : Exc A) (k : A -> Exc B) : Exc B :=
  match m with inl e => inl e | inr a => k a end.

Notation "x <- m ;; k" := (bind m (fun x => k))
  (at level 61, m at next level, right associativity).

(** [s || d] for a possibly absent string: [undefined], [null] and [''] are
    falsy. *)
Definition js_or (o : option string) (d : string) : string :=
  match o with
  | Some s => if String.eqb s "" then d else s
  | None => d
  end.

(** [n || 0] for a possibly absent count. *)
Definition js_or_nat (o : option nat) : nat :=
  match o with Some n => n | None => 0 end.

(** [String.prototype.toLowerCase] / [toUpperCase] on ASCII letters. *)
Definition ascii_lower (c : ascii) : ascii :=
  let n := nat_of_ascii c in
  if ((65 <=? n) && (n <=? 90))%nat then ascii_of_nat (n + 32)%nat else c.
Definition ascii_upper (c : ascii) : ascii :=
  let n := nat_of_ascii c in
  if ((97 <=? n) && (n <=? 122))%nat then ascii_of_nat (n - 32)%nat else c.

Fixpoint toLowerCase (s : string) : string :=
  match s with
  | EmptyString => EmptyString
  | String c s' => String (ascii_lower c) (toLowerCase s')
  end.
Fixpoint toUpperCase (s : string) : string :=
  match s with
  | EmptyString => EmptyString
  | String c s' => String (ascii_upper c) (toUpperCase s')
  end.

(** [s.includes(pat)] and [s.startsWith(pre)]. *)
Definition includes (s pat : string) : bool :=
  match String.index 0 pat s with Some _ => true | None => false end.
Definition startsWith (s pre : string) : bool := String.prefix pre s.

(** [n.toString()] for a non-negative integer. *)
Definition N_toString (n : N) : string :=
  NilEmpty.string_of_uint (N.to_uint n).

(** A JavaScript [Map] / [Set] in insertion order.  [map_set] replaces the
    value of an existing key in place, and appends a new key at the end. *)
Fixpoint map_set {V} (k : string) (v : V) (m : list (string * V))
  : list (string * V) :=
  match m with
  | [] => [(k, v)]
  | (k', v') :: m' =>
      if String.eqb k k' then (k, v) :: m' else (k', v') :: map_set k v m'
  end.

Fixpoint map_get {V} (k : string) (m : list (string * V)) : option V :=
  match m with
  | [] => None
  | (k', v') :: m' => if String.eqb k k' then Some v' else map_get k m'
  end.

Definition map_has {V} (k : string) (m : list (string * V)) : bool :=
  match map_get k m with Some _ => true | None => false end.

Definition set_add (k : string) (s : list string) : list string :=
  if existsb (String.eqb k) s then s else s ++ [k].

Definition set_has (k : string) (s : list string) : bool :=
  existsb (String.eqb k) s.

(** [Array.prototype.sort] with comparator [cmp]: a stable insertion sort
    (ECMAScript requires a sorted result for a consistent comparator, and a
    stable one since ES2019).  [x], which precedes every element of the
    sorted tail in the input, moves past [y] only when [cmp x y > 0]. *)
Fixpoint sort_insert {A} (cmp : A -> A -> Z) (x : A) (l : list A) : list A :=
  match l with
  | [] => [x]
  | y :: l' => if (0 <? cmp x y)%Z then y :: sort_insert cmp x l' else x :: y :: l'
  end.

Fixpoint js_sort {A} (cmp : A -> A -> Z) (l : list A) : list A :=
  match l with
  | [] => []
  | x :: l' => sort_insert cmp x (js_sort cmp l')
  end.

(** ** Shared types ([types.ts]) *)

Inductive PipelineStatus := ps_success | ps_failed | ps_warning | ps_pending.
Inductive ReviewState := approved | changes_requested | pending | commented.
Inductive RepoSource := github | gitlab.

Definition ReviewState_eqb (a b : ReviewState) : bool :=
  match a, b with
  | approved, approved | changes_requested, changes_requested
  | pending, pending | commented, commented => true
  | _, _ => false
  end.
Definition PipelineStatus_eqb (a b : PipelineStatus) : bool :=
  match a, b with
  | ps_success, ps_success | ps_failed, ps_failed
  | ps_warning, ps_warning | ps_pending, ps_pending => true
  | _, _ => false
  end.

Record User := mkUser { name : string; avatarUrl : string; username : string }.

(** [interface Reviewer extends User { status: ReviewState }] *)
Record Reviewer := mkReviewer {
  rv_name : string; rv_avatarUrl : string; rv_username : string;
  status : ReviewState }.

Record CommentStats := mkCommentStats { resolved : nat; total : nat }.
Record Approvals := mkApprovals { given : nat; required : nat }.
Record Changes := mkChanges { files : nat; additions : nat; deletions : nat }.

Record UnifiedPullRequest := mkUPR {
  id : string;
  uniqueKey : string;
  title : string;
  url : string;
  source : RepoSource;
  repoName : string;
  updatedAt : Z;
  author : User;
  reviewers : list Reviewer;
  pipelineStatus : PipelineStatus;
  commentStats : CommentStats;
  approvals : Approvals;
  changes : Changes;
  isAuthor : bool;
  isReviewer : bool;
  myReviewState : ReviewState;
  overallReviewState : ReviewState }.

(** ** Transport

    The outcome of [await fetch(...)] followed by [await response.json()]:
    a network failure rejects [fetch]; a body that is not JSON rejects
    [response.json()] ([body = None]); otherwise the parsed body.  The HTTP
    status is kept so that a statement can mention it; neither adapter reads
    it ([response.ok] is never consulted). *)
Inductive Transport (Body : Type) :=
| NetworkError
| Response (httpStatus : Z) (body : option Body).
Arguments NetworkError {Body}.
Arguments Response {Body} httpStatus body.

(** ** GitHub adapter ([src/unnamed/part_002]) *)

(** [author { login avatarUrl }] *)
Record GhActor := mkGhActor { login : string; gh_avatarUrl : string }.

(** [requestedReviewer { ... on User { login avatarUrl } }]: a team or
    another non-user reviewer is the empty object [{}]. *)
Record GhRequested := mkGhRequested {
  rq_login : option string; rq_avatarUrl : option string }.

Record GhReviewNode := mkGhReviewNode {
  rn_author : option GhActor;
  rn_state : option string;
  submittedAt : Z }.

Record GhCommentNode := mkGhCommentNode { cn_author : option GhActor }.

Record GhRepository := mkGhRepository { repo_name : string; owner_login : string }.

(** One [PullRequest] node of the search.  [reviewRequests] is
    [pr.reviewRequests?.nodes] mapped to [n.requestedReviewer] ([None] for a
    [null] reviewer); [statusCheckState] is
    [pr.commits.nodes[0]?.commit?.statusCheckRollup?.state]. *)
Record GhPR := mkGhPR {
  number : N;
  gh_title : string;
  gh_url : string;
  gh_updatedAt : Z;
  repository : GhRepository;
  gh_author : option GhActor;
  reviewRequests : option (list (option GhRequested));
  reviews : option (list GhReviewNode);
  comments : option (list GhCommentNode);
  statusCheckState : option string;
  totalCommentsCount : nat;
  changedFiles : nat;
  gh_additions : nat;
  gh_deletions : nat;
  reviewDecision : option string }.

(** [json] of the GitHub response: [json.errors] and
    [json.data.search.nodes] ([None] when [json.data] is [null]). *)
Record GhBody := mkGhBody {
  gh_errors : option (list string);
  gh_nodes : option (list GhPR) }.

(** The values stored in [latestStateByLogin]. *)
Inductive Binding := B_APPROVED | B_CHANGES_REQUESTED.

Definition opt_eqb (o : option string) (s : string) : bool :=
  match o with Some s' => String.eqb s' s | None => false end.

(** [x?.login] when truthy. *)
Definition actor_login (a : option GhActor) : option string :=
  match a with
  | Some a => if String.eqb (login a) "" then None else Some (login a)
  | None => None
  end.

Definition truthy (o : option string) : option string :=
  match o with
  | Some s => if String.eqb s "" then None else Some s
  | None => None
  end.

Definition opt_list {A} (o : option (list A)) : list A :=
  match o with Some l => l | None => [] end.

(** [reviewNodes.forEach(...)]: the replay of the review submissions,
    threading [latestStateByLogin] and [commentedLogins]. *)
Definition replay_review
    (st : list (string * option Binding) * list string) (r : GhReviewNode)
  : list (string * option Binding) * list string :=
  let '(latest, commentedLogins) := st in
  match actor_login (rn_author r) with
  | None => st
  | Some lg =>
      let state := toUpperCase (js_or (rn_state r) "") in
      if String.eqb state "COMMENTED" then (latest, set_add lg commentedLogins)
      else if String.eqb state "APPROVED" then
        (map_set lg (Some B_APPROVED) latest, commentedLogins)
      else if String.eqb state "CHANGES_REQUESTED" then
        (map_set lg (Some B_CHANGES_REQUESTED) latest, commentedLogins)
      else if String.eqb state "DISMISSED" then
        (map_set lg None latest, commentedLogins)
      else st
  end.

(** [commentNodes.forEach(...)] *)
Definition add_comment_author (commentedLogins : list string) (c : GhCommentNode)
  : list string :=
  match actor_login (cn_author c) with
  | Some lg => set_add lg commentedLogins
  | None => commentedLogins
  end.

(** [reviewNodes.sort((a, b) => a.submittedAt - b.submittedAt)] *)
Definition sort_reviews (rs : list GhReviewNode) : list GhReviewNode :=
  js_sort (fun a b => (submittedAt a - submittedAt b)%Z) rs.

(** The logins whose latest binding state is [v]
    ([latestStateByLogin.forEach(...)]). *)
Definition logins_with (v : Binding) (latest : list (string * option Binding))
  : list string :=
  fold_left (fun acc '(lg, st) =>
      match st, v with
      | Some B_APPROVED, B_APPROVED
      | Some B_CHANGES_REQUESTED, B_CHANGES_REQUESTED => set_add lg acc
      | _, _ => acc
      end) latest [].

Definition gh_reviewer_status (approvers changesRequested commentedLogins : list string)
    (isRequested : bool) (u : string) : ReviewState :=
  if set_has u approvers then approved
  else if set_has u changesRequested then
    (if isRequested then pending else changes_requested)
  else if isRequested then pending
  else if set_has u commentedLogins then commented
  else pending.

Definition gh_pipeline (statusCommit : option string) : PipelineStatus :=
  let s := toUpperCase (js_or statusCommit "") in
  if includes s "WARN" || String.eqb s "NEUTRAL" then ps_warning
  else if String.eqb s "SUCCESS" then ps_success
  else if String.eqb s "FAILURE" || String.eqb s "ERROR" then ps_failed
  else if String.eqb s "PENDING" || String.eqb s "RUNNING" then ps_pending
  else ps_pending.

(** Step 1 of [mapGithubToUnified]: [requestedReviewers] (with
    [.filter(Boolean)]), the sorted [reviewNodes], and the replay. *)
Definition gh_requestedReviewers (pr : GhPR) : list GhRequested :=
  fold_right (fun o acc => match o with Some r => r :: acc | None => acc end)
    [] (opt_list (reviewRequests pr)).

Definition gh_reviewNodes (pr : GhPR) : list GhReviewNode :=
  sort_reviews (opt_list (reviews pr)).

(** [(latestStateByLogin, commentedLogins)] after the review submissions. *)
Definition gh_replay (pr : GhPR) : list (string * option Binding) * list string :=
  fold_left replay_review (gh_reviewNodes pr) ([], []).

(** [requestedReviewers.some(req => req.login === login)] *)
Definition is_requested (requestedReviewers : list GhRequested) (lg : string) : bool :=
  existsb (fun req => opt_eqb (rq_login req) lg) requestedReviewers.

(** [function mapGithubToUnified(pr, currentUsername)]: the first line
    reads [pr.author.login], which throws when the author is [null]. *)
Definition mapGithubToUnified (pr : GhPR) (currentUsername : string)
  : Exc UnifiedPullRequest :=
  match gh_author pr with
  | None => throw "TypeError: Cannot read properties of null (reading 'login')"
  | Some prAuthor =>
  let isAuthor := String.eqb (login prAuthor) currentUsername in
  (* 1. Gather all data points *)
  let requestedReviewers := gh_requestedReviewers pr in
  let reviewNodes := gh_reviewNodes pr in
  let commentNodes := opt_list (comments pr) in
  let '(latestStateByLogin, commentedLogins0) := gh_replay pr in
  let commentedLogins := fold_left add_comment_author commentNodes commentedLogins0 in
  (* 3. Build the final maps based on the calculated LATEST state *)
  let approvers := logins_with B_APPROVED latestStateByLogin in
  let changesRequested := logins_with B_CHANGES_REQUESTED latestStateByLogin in
  (* 4. Build Reviewer List *)
  let allReviewerUsernames :=
    fold_left (fun acc c => match actor_login (cn_author c) with
                            | Some lg => set_add lg acc | None => acc end)
      commentNodes
      (fold_left (fun acc r => match actor_login (rn_author r) with
                               | Some lg => set_add lg acc | None => acc end)
         reviewNodes
         (fold_left (fun acc r => match truthy (rq_login r) with
                                  | Some lg => set_add lg acc | None => acc end)
            requestedReviewers [])) in
  let avatarOf lg :=
    js_or (match find (fun x => opt_eqb (rq_login x) lg) requestedReviewers with
           | Some x => rq_avatarUrl x | None => None end)
      (js_or (match find (fun x => opt_eqb (option_map login (rn_author x)) lg)
                      reviewNodes with
              | Some x => option_map gh_avatarUrl (rn_author x) | None => None end)
         ("https://github.com/" ++ lg ++ ".png")) in
  let reviewers :=
    map (fun lg =>
      let isRequested := is_requested requestedReviewers lg in
      mkReviewer lg (avatarOf lg) lg
        (gh_reviewer_status approvers changesRequested commentedLogins isRequested lg))
      allReviewerUsernames in
  let isReviewer := set_has currentUsername allReviewerUsernames in
  (* 5. Determine Pipeline Status *)
  let pipelineStatus := gh_pipeline (statusCheckState pr) in
  (* 6. Determine My Review State *)
  let amIRequested := is_requested requestedReviewers currentUsername in
  let myReviewState :=
    if amIRequested then pending
    else match map_get currentUsername latestStateByLogin with
         | Some (Some B_APPROVED) => approved
         | Some (Some B_CHANGES_REQUESTED) => changes_requested
         | _ => if set_has currentUsername commentedLogins then commented else pending
         end in
  (* 7. Overall Review State *)
  let overallReviewState :=
    if opt_eqb (reviewDecision pr) "APPROVED" then approved
    else if opt_eqb (reviewDecision pr) "CHANGES_REQUESTED" then changes_requested
    else if (0 <? length changesRequested)%nat then changes_requested
    else if (0 <? length approvers)%nat && opt_eqb (reviewDecision pr) "APPROVED"
         then approved
    else pending in
  ret {|
    id := N_toString (number pr);
    uniqueKey := owner_login (repository pr) ++ "/" ++ repo_name (repository pr)
                 ++ "#" ++ N_toString (number pr);
    title := gh_title pr;
    url := gh_url pr;
    source := github;
    repoName := repo_name (repository pr);
    updatedAt := gh_updatedAt pr;
    author := mkUser (login prAuthor) (gh_avatarUrl prAuthor) (login prAuthor);
    reviewers := reviewers;
    pipelineStatus := pipelineStatus;
    commentStats := mkCommentStats 0 (totalCommentsCount pr);
    approvals := mkApprovals (length approvers) 1;
    changes := mkChanges (changedFiles pr) (gh_additions pr) (gh_deletions pr);
    isAuthor := isAuthor;
    isReviewer := isReviewer;
    myReviewState := myReviewState;
    overallReviewState := overallReviewState |}
  end.

(** [Array.prototype.map] with a callback that may throw. *)
Fixpoint mapM {A B} (f : A -> Exc B) (l : list A) : Exc (list B) :=
  match l with
  | [] => ret []
  | x :: l' => y <- f x ;; ys <- mapM f l' ;; ret (y :: ys)
  end.

(** [export const fetchGithubPRs = async (token, username) => ...] *)
Definition fetchGithubPRs (token username : string) (tr : Transport GhBody)
  : Exc (list UnifiedPullRequest) :=
  match tr with
  | NetworkError => throw "TypeError: Failed to fetch"
  | Response _ None => throw "SyntaxError: Unexpected token in JSON"
  | Response _ (Some json) =>
      match gh_errors json with
      | Some _ => throw "Failed to fetch from GitHub"
      | None =>
          match gh_nodes json with
          | None => throw "TypeError: Cannot read properties of null (reading 'search')"
          | Some nodes => mapM (fun pr => mapGithubToUnified pr username) nodes
          end
      end
  end.

(** ** GitLab adapter ([src/src/adapters/gitlab.ts]) *)

(** [author { username avatarUrl name }] *)
Record GlUser := mkGlUser {
  gu_username : option string; gu_name : option string; gu_avatarUrl : option string }.

(** One [reviewers.nodes] entry; [gr_reviewState] is
    [r.mergeRequestInteraction?.reviewState]. *)
Record GlReviewerNode := mkGlReviewerNode {
  gr_username : string; gr_name : string; gr_avatarUrl : option string;
  gr_reviewState : option string }.

Record GlProject := mkGlProject { gp_name : string; gp_path : string }.

(** [headPipeline { status detailedStatus { label } }] *)
Record GlPipeline := mkGlPipeline { pl_status : option string; pl_label : option string }.

Record GlDiffStats := mkGlDiffStats {
  fileCount : option nat; ds_additions : option nat; ds_deletions : option nat }.

Record GlDiscussion := mkGlDiscussion { d_resolvable : bool; d_resolved : bool }.

(** One [MergeRequest] node ([fragment MRFields]).  [approvedBy] is
    [mr.approvedBy?.nodes?.map(u => u.username)]. *)
Record GlMR := mkGlMR {
  iid : string;
  gl_title : string;
  webUrl : string;
  gl_updatedAt : Z;
  project : option GlProject;
  gl_author : option GlUser;
  gl_reviewers : option (list GlReviewerNode);
  headPipeline : option GlPipeline;
  approvedBy : option (list string);
  approvalsRequired : option nat;
  diffStatsSummary : option GlDiffStats;
  userNotesCount : option nat;
  discussions : option (list GlDiscussion) }.

(** [currentUser { username authoredMergeRequests assignedMergeRequests
    reviewRequestedMergeRequests }], each list being [...?.nodes]. *)
Record GlCurrentUser := mkGlCurrentUser {
  cu_username : string;
  authoredMergeRequests : option (list GlMR);
  assignedMergeRequests : option (list GlMR);
  reviewRequestedMergeRequests : option (list GlMR) }.

(** [json] of the GitLab response: [json.errors] and [json.data?.currentUser]. *)
Record GlBody := mkGlBody {
  gl_errors : option (list string);
  currentUser : option GlCurrentUser }.

(** [resolveAvatar] inside [mapGitlabToUnified]. *)
Definition resolveAvatar (baseUrl : string) (u : option string) : string :=
  match truthy u with
  | None => ""
  | Some url =>
      if startsWith url "http" then url
      else baseUrl ++ (if startsWith url "/" then "" else "/") ++ url
  end.

(** [function mapPipelineStatus(status?, detailedLabel?)] *)
Definition mapPipelineStatus (st detailedLabel : option string) : PipelineStatus :=
  let label := toLowerCase (js_or detailedLabel "") in
  let s := toLowerCase (js_or st "") in
  if negb (String.eqb label "") &&
     (includes label "warn" || includes label "with warnings" ||
      includes label "warning" || includes label "warnings") then ps_warning
  else if negb (String.eqb s "") &&
     (includes s "warn" || includes s "with-warnings" || includes s "with_warnings")
  then ps_warning
  else if String.eqb s "success" || String.eqb s "passed" then ps_success
  else if String.eqb s "failed" || String.eqb s "failure" then ps_failed
  else if String.eqb s "running" || String.eqb s "pending" ||
          String.eqb s "created" || String.eqb s "manual" then ps_pending
  else ps_pending.

(** The per-reviewer status of [rawReviewers.map(...)]. *)
Definition gl_reviewer_status (approvers : list string) (r : GlReviewerNode)
  : ReviewState :=
  let glState := gr_reviewState r in
  let st :=
    if opt_eqb glState "APPROVED" then approved
    else if opt_eqb glState "REQUESTED_CHANGES" then changes_requested
    else if opt_eqb glState "REVIEWED" then commented
    else if opt_eqb glState "UNREVIEWED" then pending
    else pending in
  match st with
  | pending => if set_has (gr_username r) approvers then approved else pending
  | _ => st
  end.

(** The [discussions.nodes.forEach(...)] loop: [(resolvedCount, totalResolvable)]. *)
Definition count_discussions (ds : list GlDiscussion) : nat * nat :=
  fold_left (fun '(resolvedCount, totalResolvable) d =>
      if d_resolvable d then
        (if d_resolved d then S resolvedCount else resolvedCount, S totalResolvable)
      else (resolvedCount, totalResolvable)) ds (0, 0)%nat.

(** [function mapGitlabToUnified(mr, currentUsername, baseUrl)]: it throws
    only when [mr.project] is [null] ([mr.project.path]). *)
Definition mapGitlabToUnified (mr : GlMR) (currentUsername baseUrl : string)
  : Exc UnifiedPullRequest :=
  let approvers := fold_left (fun acc u => set_add u acc) (opt_list (approvedBy mr)) [] in
  let rawReviewers := opt_list (gl_reviewers mr) in
  let reviewers :=
    map (fun r => mkReviewer (gr_name r) (resolveAvatar baseUrl (gr_avatarUrl r))
                    (gr_username r) (gl_reviewer_status approvers r)) rawReviewers in
  let myReviewState0 :=
    match find (fun r => String.eqb (rv_username r) currentUsername) reviewers with
    | Some r => status r
    | None => pending
    end in
  let myReviewState :=
    match myReviewState0 with
    | pending => if set_has currentUsername approvers then approved else pending
    | st => st
    end in
  let givenApprovals := length approvers in
  let requiredApprovals := js_or_nat (approvalsRequired mr) in
  let hasRequestedChanges :=
    existsb (fun r => ReviewState_eqb (status r) changes_requested) reviewers in
  let overallReviewState :=
    if hasRequestedChanges then changes_requested
    else if (0 <? requiredApprovals)%nat && (requiredApprovals <=? givenApprovals)%nat
    then approved
    else pending in
  let '(resolvedCount, totalResolvable) := count_discussions (opt_list (discussions mr)) in
  match project mr with
  | None => throw "TypeError: Cannot read properties of null (reading 'path')"
  | Some prj =>
  ret {|
    id := iid mr;
    uniqueKey := gp_path prj ++ "#" ++ iid mr;
    title := gl_title mr;
    url := webUrl mr;
    source := gitlab;
    repoName := gp_name prj;
    updatedAt := gl_updatedAt mr;
    author := mkUser
      (js_or (match gl_author mr with Some a => gu_name a | None => None end) "Unknown")
      (resolveAvatar baseUrl (match gl_author mr with Some a => gu_avatarUrl a | None => None end))
      (js_or (match gl_author mr with Some a => gu_username a | None => None end) "unknown");
    reviewers := reviewers;
    pipelineStatus :=
      mapPipelineStatus (match headPipeline mr with Some p => pl_status p | None => None end)
                        (match headPipeline mr with Some p => pl_label p | None => None end);
    commentStats := mkCommentStats resolvedCount totalResolvable;
    approvals := mkApprovals givenApprovals requiredApprovals;
    changes :=
      match diffStatsSummary mr with
      | Some d => mkChanges (js_or_nat (fileCount d)) (js_or_nat (ds_additions d))
                            (js_or_nat (ds_deletions d))
      | None => mkChanges 0 0 0
      end;
    isAuthor := match gl_author mr with
                | Some a => opt_eqb (gu_username a) currentUsername
                | None => false
                end;
    isReviewer := existsb (fun r => String.eqb (rv_username r) currentUsername) reviewers;
    myReviewState := myReviewState;
    overallReviewState := overallReviewState |}
  end.

(** The deduplication key [`${mr.project.path}#${mr.iid}`]. *)
Definition gl_key (mr : GlMR) : Exc string :=
  match project mr with
  | None => throw "TypeError: Cannot read properties of null (reading 'path')"
  | Some prj => ret (gp_path prj ++ "#" ++ iid mr)
  end.

(** [addList]: every MR is stored with [mrMap.set(key, mr)]. *)
Definition addList (mrMap : list (string * GlMR)) (l : option (list GlMR))
  : Exc (list (string * GlMR)) :=
  match l with
  | None => ret mrMap
  | Some l =>
      fold_left (fun acc mr => m <- acc ;; k <- gl_key mr ;; ret (map_set k mr m))
        l (ret mrMap)
  end.

(** [host.replace(/\/$/, '')] *)
Fixpoint strip_trailing_slash (s : string) : string :=
  match s with
  | EmptyString => EmptyString
  | String c EmptyString => if Ascii.eqb c "/"%char then EmptyString else s
  | String c s' => String c (strip_trailing_slash s')
  end.

(** The body of the [try] block of [fetchGitlabMRs]. *)
Definition fetchGitlab_try (cleanHost : string) (tr : Transport GlBody)
  : Exc (list UnifiedPullRequest) :=
  match tr with
  | NetworkError => throw "TypeError: Failed to fetch"
  | Response _ None => throw "SyntaxError: Unexpected token in JSON"
  | Response _ (Some json) =>
      match gl_errors json with
      | Some (e :: _) => throw e
      | Some [] => throw "TypeError: Cannot read properties of undefined (reading 'message')"
      | None =>
          match currentUser json with
          | None => ret []
          | Some cu =>
              let realUsername := cu_username cu in
              m1 <- addList [] (authoredMergeRequests cu) ;;
              m2 <- addList m1 (assignedMergeRequests cu) ;;
              m3 <- addList m2 (reviewRequestedMergeRequests cu) ;;
              mapM (fun kv => mapGitlabToUnified (snd kv) realUsername cleanHost) m3
          end
      end
  end.

(** [export const fetchGitlabMRs = async (host, token) => ...]: the [catch]
    logs the error and returns [[]]. *)
Definition fetchGitlabMRs (host token : string) (tr : Transport GlBody)
  : Exc (list UnifiedPullRequest) :=
  let cleanHost := strip_trailing_slash host in
  match fetchGitlab_try cleanHost tr with
  | inl _ => ret []
  | inr l => ret l
  end.

(** ** Aggregator ([fetchData] in [src/src/App.tsx]) *)

Record AppSettings := mkAppSettings {
  githubToken : string;
  githubUsername : string;
  gitlabToken : string;
  gitlabHost : string;
  gitlabUsername : string }.

(** The part of the component state that [fetchData] writes. *)
Record FetchState := mkFetchState {
  data : list UnifiedPullRequest;
  error : option string }.

(** [promise.catch(e => { throw new Error(`${tag}: ${e.message}`) })] *)
Definition tag_error {A} (tag : string) (p : Exc A) : Exc A :=
  match p with inl e => inl (tag ++ ": " ++ e) | inr a => inr a end.

(** [Promise.all]: all values, or a rejection.  With several rejections
    JavaScript reports the one that settles first; the model reports the
    first in array order. *)
Fixpoint promise_all {A} (ps : list (Exc A)) : Exc (list A) :=
  match ps with
  | [] => ret []
  | p :: ps' => a <- p ;; r <- promise_all ps' ;; ret (a :: r)
  end.

(** [(a, b) => b.updatedAt.getTime() - a.updatedAt.getTime()] *)
Definition by_updatedAt_desc (a b : UnifiedPullRequest) : Z :=
  (updatedAt b - updatedAt a)%Z.

Definition nonempty (s : string) : bool := negb (String.eqb s "").

(** [const fetchData = async (currentSettings) => ...], given the transport
    outcome of each platform's request.  [setData([])] runs first, so the
    data stays empty unless every configured adapter succeeds. *)
Definition fetchData (currentSettings : AppSettings)
    (ghTransport : Transport GhBody) (glTransport : Transport GlBody)
  : FetchState :=
  let githubPromise :=
    if nonempty (githubToken currentSettings) && nonempty (githubUsername currentSettings)
    then [tag_error "GitHub"
            (fetchGithubPRs (githubToken currentSettings)
               (githubUsername currentSettings) ghTransport)]
    else [] in
  let gitlabPromise :=
    if nonempty (gitlabToken currentSettings) && nonempty (gitlabUsername currentSettings)
    then [tag_error "GitLab"
            (fetchGitlabMRs (gitlabHost currentSettings)
               (gitlabToken currentSettings) glTransport)]
    else [] in
  let promises := List.app githubPromise gitlabPromise in
  match promises with
  | [] => mkFetchState [] None
  | _ =>
      match promise_all promises with
      | inl msg => mkFetchState [] (Some msg)
      | inr results =>
          let combined := js_sort by_updatedAt_desc (concat results) in
          mkFetchState combined None
      end
  end.

(** ** Classifier ([sections] in [src/src/App.tsx]) *)

Inductive Bucket :=
| returned | reviewRequested | yourPRs | waitingForApprovals
| approvedByYou | approvedByOthers.

Record Buckets := mkBuckets {
  b_returned : list UnifiedPullRequest;
  b_reviewRequested : list UnifiedPullRequest;
  b_yourPRs : list UnifiedPullRequest;
  b_waitingForApprovals : list UnifiedPullRequest;
  b_approvedByYou : list UnifiedPullRequest;
  b_approvedByOthers : list UnifiedPullRequest }.

Definition empty_buckets : Buckets := mkBuckets [] [] [] [] [] [].

Definition bucket (bs : Buckets) (b : Bucket) : list UnifiedPullRequest :=
  match b with
  | returned => b_returned bs
  | reviewRequested => b_reviewRequested bs
  | yourPRs => b_yourPRs bs
  | waitingForApprovals => b_waitingForApprovals bs
  | approvedByYou => b_approvedByYou bs
  | approvedByOthers => b_approvedByOthers bs
  end.

(** [buckets.<b>.push(pr)] *)
Definition push (b : Bucket) (pr : UnifiedPullRequest) (bs : Buckets) : Buckets :=
  let '(mkBuckets r rr y w ay ao) := bs in
  match b with
  | returned => mkBuckets (r ++ [pr]) rr y w ay ao
  | reviewRequested => mkBuckets r (rr ++ [pr]) y w ay ao
  | yourPRs => mkBuckets r rr (y ++ [pr]) w ay ao
  | waitingForApprovals => mkBuckets r rr y (w ++ [pr]) ay ao
  | approvedByYou => mkBuckets r rr y w (ay ++ [pr]) ao
  | approvedByOthers => mkBuckets r rr y w ay (ao ++ [pr])
  end.

(** The body of [data.forEach(pr => ...)]: the bucket the item is pushed
    into before its [return], if any. *)
Definition categorize (pr : UnifiedPullRequest) : option Bucket :=
  (* Logic 1: Returned (Failed CI or Changes Requested) *)
  if isAuthor pr && (ReviewState_eqb (overallReviewState pr) changes_requested
                     || PipelineStatus_eqb (pipelineStatus pr) ps_failed)
  then Some returned
  (* Logic 2: Review Requested (I am reviewer + pending) *)
  else if isReviewer pr && ReviewState_eqb (myReviewState pr) pending
  then Some reviewRequested
  (* Logic 5: Approved by you *)
  else if isReviewer pr && ReviewState_eqb (myReviewState pr) approved
  then Some approvedByYou
  (* Logic 6: Approved by others (I am author + approved) *)
  else if isAuthor pr && ReviewState_eqb (overallReviewState pr) approved
  then Some approvedByOthers
  (* Logic 4: Waiting for approvals (I am author + pending approval) *)
  else if isAuthor pr && (given (approvals pr) <? required (approvals pr))%nat
  then Some waitingForApprovals
  (* Logic 3: Default for my PRs *)
  else if isAuthor pr then Some yourPRs
  else None.

(** [const sections = useMemo(() => { ... }, [data])] *)
Definition sections (d : list UnifiedPullRequest) : Buckets :=
  fold_left (fun bs pr =>
      match categorize pr with
      | Some b => push b pr bs
      | None => bs
      end) d empty_buckets.

(** ** The classifier table as the specification words it *)

(** The seven buckets of the specification's classifier table, in its
    priority order 1-7. *)
Inductive SpecBucket :=
| S_ReturnedToYou | S_ApprovedByOthers | S_WaitingForApprovals
| S_YourMergeRequests | S_ApprovedByYou | S_WaitingForTheAuthor
| S_ReviewRequested.

(** First match of an ordered table of guarded buckets. *)
Fixpoint first_match {B} (tbl : list (B * (UnifiedPullRequest -> bool)))
    (pr : UnifiedPullRequest) : option B :=
  match tbl with
  | [] => None
  | (b, cond) :: tbl' => if cond pr then Some b else first_match tbl' pr
  end.

(** The specification's table, read top to bottom. *)
Definition spec_table : list (SpecBucket * (UnifiedPullRequest -> bool)) :=
  [ (S_ReturnedToYou, fun pr => isAuthor pr &&
       (ReviewState_eqb (overallReviewState pr) changes_requested
        || PipelineStatus_eqb (pipelineStatus pr) ps_failed));
    (S_ApprovedByOthers, fun pr => isAuthor pr &&
       ReviewState_eqb (overallReviewState pr) approved);
    (S_WaitingForApprovals, fun pr => isAuthor pr &&
       (given (approvals pr) <? required (approvals pr))%nat);
    (S_YourMergeRequests, fun pr => isAuthor pr);
    (S_ApprovedByYou, fun pr => isReviewer pr &&
       ReviewState_eqb (myReviewState pr) approved);
    (S_WaitingForTheAuthor, fun pr => isReviewer pr &&
       (ReviewState_eqb (myReviewState pr) changes_requested
        || ReviewState_eqb (myReviewState pr) commented));
    (S_ReviewRequested, fun pr => isReviewer pr &&
       ReviewState_eqb (myReviewState pr) pending) ].

(** The table the code implements: six buckets, in the order of the
    [if] chain of [sections]. *)
Definition code_table : list (Bucket * (UnifiedPullRequest -> bool)) :=
  [ (returned, fun pr => isAuthor pr &&
       (ReviewState_eqb (overallReviewState pr) changes_requested
        || PipelineStatus_eqb (pipelineStatus pr) ps_failed));
    (reviewRequested, fun pr => isReviewer pr &&
       ReviewState_eqb (myReviewState pr) pending);
    (approvedByYou, fun pr => isReviewer pr &&
       ReviewState_eqb (myReviewState pr) approved);
    (approvedByOthers, fun pr => isAuthor pr &&
       ReviewState_eqb (overallReviewState pr) approved);
    (waitingForApprovals, fun pr => isAuthor pr &&
       (given (approvals pr) <? required (approvals pr))%nat);
    (yourPRs, fun pr => isAuthor pr) ].

(** ** Concrete inputs used by the examples *)

(** A unified item with the given logic flags and neutral other fields. *)
Definition sample_item (isA isR : bool) (mine overall : ReviewState)
    (ps : PipelineStatus) (g r : nat) : UnifiedPullRequest :=
  {| id := "1"; uniqueKey := "o/r#1"; title := "t"; url := "u";
     source := github; repoName := "r"; updatedAt := 0%Z;
     author := mkUser "a" "" "a"; reviewers := [];
     pipelineStatus := ps; commentStats := mkCommentStats 0 0;
     approvals := mkApprovals g r; changes := mkChanges 0 0 0;
     isAuthor := isA; isReviewer := isR;
     myReviewState := mine; overallReviewState := overall |}.

(** A GitHub pull request by [alice], on which [bob] requested changes and
    was then re-requested, [carol] approved and was dismissed, and [alice]
    left a plain comment. *)
Definition sample_review (lg st : string) (t : Z) : GhReviewNode :=
  mkGhReviewNode (Some (mkGhActor lg ("https://avatars/" ++ lg))) (Some st) t.

Definition sample_gh_pr : GhPR :=
  mkGhPR 42 "Add feature" "https://github.com/own/repo/pull/42" 1000%Z
    (mkGhRepository "repo" "own") (Some (mkGhActor "alice" "https://avatars/alice"))
    (Some [Some (mkGhRequested (Some "bob") None)])
    (Some [sample_review "bob" "CHANGES_REQUESTED" 5%Z;
           sample_review "carol" "APPROVED" 3%Z;
           sample_review "carol" "DISMISSED" 4%Z])
    (Some [mkGhCommentNode (Some (mkGhActor "alice" "https://avatars/alice"))])
    (Some "SUCCESS") 3 1 2 3 None.

(** A GitLab merge request [!7] of project [web] by [alice], with reviewers
    [alice] (approved) and [bob] (requested changes), and three discussions
    of which two are resolvable and one of those resolved. *)
Definition sample_gl_mr (iid_ title_ : string) (t : Z) : GlMR :=
  mkGlMR iid_ title_ ("https://gitlab.com/g/web/-/merge_requests/" ++ iid_) t
    (Some (mkGlProject "Web" "web"))
    (Some (mkGlUser (Some "alice") (Some "Alice") (Some "/uploads/a.png")))
    (Some [mkGlReviewerNode "alice" "Alice" None (Some "APPROVED");
           mkGlReviewerNode "bob" "Bob" (Some "https://x/b.png") (Some "REQUESTED_CHANGES")])
    (Some (mkGlPipeline (Some "SUCCESS") (Some "passed with warnings")))
    (Some ["alice"]) (Some 1%nat) None (Some 12%nat)
    (Some [mkGlDiscussion true true; mkGlDiscussion true false;
           mkGlDiscussion false false]).

(** [mr] with another [userNotesCount]. *)
Definition with_userNotesCount (mr : GlMR) (n : option nat) : GlMR :=
  mkGlMR (iid mr) (gl_title mr) (webUrl mr) (gl_updatedAt mr) (project mr)
    (gl_author mr) (gl_reviewers mr) (headPipeline mr) (approvedBy mr)
    (approvalsRequired mr) (diffStatsSummary mr) n (discussions mr).

(** ** Notions used to state the GitLab deduplication *)

(** The three result sets in the order [addList] scans them. *)
Definition gl_all_mrs (cu : GlCurrentUser) : list GlMR :=
  List.app (opt_list (authoredMergeRequests cu))
    (List.app (opt_list (assignedMergeRequests cu))
              (opt_list (reviewRequestedMergeRequests cu))).

(** The merge requests carried by a response, [[]] when it carries none. *)
Definition gl_response_mrs (tr : Transport GlBody) : list GlMR :=
  match tr with
  | Response _ (Some json) =>
      match currentUser json with Some cu => gl_all_mrs cu | None => [] end
  | _ => []
  end.

Definition has_project (mr : GlMR) : bool :=
  match project mr with Some _ => true | None => false end.

(** The key [`${mr.project.path}#${mr.iid}`] of an MR that has a project. *)
Definition gl_key_str (mr : GlMR) : string :=
  match project mr with Some prj => gp_path prj ++ "#" ++ iid mr | None => "" end.

(** The last occurrence of key [k] in a scan. *)
Definition last_with_key (k : string) (l : list GlMR) : option GlMR :=
  fold_left (fun acc mr => if String.eqb (gl_key_str mr) k then Some mr else acc) l None.

(** The keys of a scan, each at its first occurrence. *)
Definition first_seen_keys (l : list GlMR) : list string :=
  fold_left (fun acc mr => set_add (gl_key_str mr) acc) l [].

(** A GitLab response for [alice] with the given authored and
    review-requested result sets (no assigned set). *)
Definition sample_gl_body (authored reviewRequested : list GlMR) : GlBody :=
  mkGlBody None (Some (mkGlCurrentUser "alice" (Some authored) None (Some reviewRequested))).

(** One [mrMap.set(key, mr)] of [addList], for an MR that has a project. *)
Definition dedup_step (m : list (string * GlMR)) (mr : GlMR) : list (string * GlMR) :=
  map_set (gl_key_str mr) mr m.

(** ** A pull request whose author account was deleted

    GitHub reports the author of such a pull request as [null]. *)
Definition sample_gh_pr_ghost : GhPR :=
  mkGhPR (number sample_gh_pr) (gh_title sample_gh_pr) (gh_url sample_gh_pr)
    (gh_updatedAt sample_gh_pr) (repository sample_gh_pr) None
    (reviewRequests sample_gh_pr) (reviews sample_gh_pr) (comments sample_gh_pr)
    (statusCheckState sample_gh_pr) (totalCommentsCount sample_gh_pr)
    (changedFiles sample_gh_pr) (gh_additions sample_gh_pr) (gh_deletions sample_gh_pr)
    (reviewDecision sample_gh_pr).

(** A GitHub pull request by [alice] approved by [dave] (twice) and [erin],
    with [bob] re-requested after a review comment. *)
Definition sample_gh_pr_approved : GhPR :=
  mkGhPR 43 "Refactor" "https://github.com/own/repo/pull/43" 2000%Z
    (mkGhRepository "repo" "own") (Some (mkGhActor "alice" "https://avatars/alice"))
    (Some [Some (mkGhRequested (Some "bob") None)])
    (Some [sample_review "dave" "APPROVED" 3%Z;
           sample_review "erin" "APPROVED" 2%Z;
           sample_review "bob" "COMMENTED" 1%Z;
           sample_review "dave" "APPROVED" 4%Z])
    None (Some "SUCCESS") 0 1 2 3 (Some "APPROVED").

(** A successful GitHub search response carrying [nodes]. *)
Definition sample_gh_response (nodes : list GhPR) : Transport GhBody :=
  Response 200%Z (Some (mkGhBody None (Some nodes))).

(** A successful GitLab response with one authored merge request. *)
Definition sample_gl_response : Transport GlBody :=
  Response 200%Z (Some (sample_gl_body [sample_gl_mr "7" "Fix" 900%Z] [])).

(** Settings with both platforms configured for [alice]. *)
Definition sample_settings : AppSettings :=
  mkAppSettings "ghp_token" "alice" "glpat_token" "https://gitlab.com/" "alice".

(** ** Notions used to state key uniqueness *)

Fixpoint has_char (c : ascii) (s : string) : bool :=
  match s with
  | EmptyString => false
  | String c' s' => Ascii.eqb c c' || has_char c s'
  end.

(** The pull request nodes carried by a GitHub response. *)
Definition gh_response_nodes (tr : Transport GhBody) : list GhPR :=
  match tr with
  | Response _ (Some json) => opt_list (gh_nodes json)
  | _ => []
  end.

(** What identifies a GitHub pull request: owner, repository, number. *)
Definition gh_ident (pr : GhPR) : string * string * N :=
  (owner_login (repository pr), repo_name (repository pr), number pr).

(** The key [`${owner.login}/${repository.name}#${number}`]. *)
Definition gh_key (pr : GhPR) : string :=
  owner_login (repository pr) ++ "/" ++ repo_name (repository pr)
  ++ "#" ++ N_toString (number pr).

(** GitHub's naming rules: a login has no ['/'], a repository name no ['#']. *)
Definition gh_names_ok (pr : GhPR) : Prop :=
  has_char "/" (owner_login (repository pr)) = false /\
  has_char "#" (repo_name (repository pr)) = false.

(** GitLab's naming rules: a project path (the project's own slug, without
    its namespace) and an iid have no ['/']. *)
Definition gl_names_ok (mr : GlMR) : Prop :=
  match project mr with
  | Some prj => has_char "/" (gp_path prj) = false
  | None => True
  end /\ has_char "/" (iid mr) = false.


(** ** Rendering helpers of [src/src/App.tsx] *)

(** [`${n}`] for an integer [n]. *)
Definition Z_toString (z : Z) : string :=
  if (z <? 0)%Z then "-" ++ N_toString (Z.to_N (- z)) else N_toString (Z.to_N z).

(** [`${n}`] for a count. *)
Definition nat_toString (n : nat) : string := N_toString (N.of_nat n).

Definition green_class : string := "text-green-600 dark:text-green-400".
Definition yellow_class : string := "text-yellow-600 dark:text-yellow-400".
Definition red_class : string := "text-red-600 dark:text-red-400".
Definition orange_class : string := "text-orange-600 dark:text-orange-400".

Record RelativeTime := mkRelativeTime { rt_text : string; colorClass : string }.

(** [function getRelativeTime(date)], with [now = new Date().getTime()] and
    the date as [date.getTime()], both in milliseconds.  With
    [diffHours = diffMs / 3600000] and [diffDays = diffHours / 24], the tests
    [diffHours < 1], [diffHours < 24] and [diffDays < 7] are
    [diffMs < 3600000], [diffMs < 86400000] and [diffMs < 604800000], and
    [Math.floor] of the quotients is the floor division of [diffMs] (the
    quotients of a millisecond difference by these units are never within a
    rounding error of an integer they do not equal). *)
Definition getRelativeTime (now date : Z) : RelativeTime :=
  let diffMs := (now - date)%Z in
  if (diffMs <? 3600000)%Z then
    mkRelativeTime (Z_toString (diffMs / 60000) ++ "m") green_class
  else if (diffMs <? 86400000)%Z then
    mkRelativeTime (Z_toString (diffMs / 3600000) ++ "h") green_class
  else if (diffMs <? 604800000)%Z then
    mkRelativeTime (Z_toString (diffMs / 86400000) ++ "d") yellow_class
  else
    mkRelativeTime (Z_toString (diffMs / 86400000) ++ "d") red_class.

Definition RepoSource_toString (s : RepoSource) : string :=
  match s with github => "github" | gitlab => "gitlab" end.

(** The React key of a row: [key={pr.id + pr.source}]. *)
Definition row_key (pr : UnifiedPullRequest) : string :=
  id pr ++ RepoSource_toString (source pr).

(** The text of the comments cell of [PRRow]. *)
Definition comment_cell (pr : UnifiedPullRequest) : string :=
  if (total (commentStats pr) =? 0)%nat then "-"
  else if (resolved (commentStats pr) =? total (commentStats pr))%nat then "All resolved"
  else nat_toString (resolved (commentStats pr)) ++ "/" ++ nat_toString (total (commentStats pr)).

(** The colour of the given-approvals count in [PRRow]:
    [pr.approvals.given >= pr.approvals.required ? green : orange]. *)
Definition approvals_class (pr : UnifiedPullRequest) : string :=
  if (required (approvals pr) <=? given (approvals pr))%nat then green_class
  else orange_class.

(** The blocks of the [App] render that depend on the fetch state. *)
Inductive Panel := ErrorBanner | EmptyState | LoadingState | MainContent.

Definition panels (loading : bool) (d : list UnifiedPullRequest) (err : option string)
  : list Panel :=
  let hasError := match err with Some _ => true | None => false end in
  let isEmpty := match d with [] => true | _ => false end in
  List.app (if hasError then [ErrorBanner] else [])
  (List.app (if negb loading && isEmpty && negb hasError then [EmptyState] else [])
  (List.app (if loading && isEmpty then [LoadingState] else [])
            (if negb loading && negb isEmpty then [MainContent] else []))).

(** The mount effect of [App]: [if (settings.githubToken ||
    settings.gitlabToken) fetchData(); else setIsSettingsOpen(true);].  The
    result is whether the settings modal is open, and the fetch state once
    [fetchData] has settled ([loading] is then [false]). *)
Definition mount (settings : AppSettings) (gh : Transport GhBody) (gl : Transport GlBody)
  : bool * FetchState :=
  if nonempty (githubToken settings) || nonempty (gitlabToken settings)
  then (false, fetchData settings gh gl)
  else (true, mkFetchState [] None).

(** [const DEFAULT_SETTINGS] *)
Definition DEFAULT_SETTINGS : AppSettings :=
  mkAppSettings "" "" "" "https://gitlab.com" "".

(** [`${cleanHost}/api/graphql`] in [fetchGitlabMRs]. *)
Definition gitlab_endpoint (host : string) : string :=
  strip_trailing_slash host ++ "/api/graphql".

Definition Bucket_eqb (a b : Bucket) : bool :=
  match a, b with
  | returned, returned | reviewRequested, reviewRequested | yourPRs, yourPRs
  | waitingForApprovals, waitingForApprovals | approvedByYou, approvedByYou
  | approvedByOthers, approvedByOthers => true
  | _, _ => false
  end.

(** Whether the classifier puts [pr] in bucket [b]. *)
Definition in_bucket (b : Bucket) (pr : UnifiedPullRequest) : bool :=
  match categorize pr with Some b' => Bucket_eqb b' b | None => false end.

(** Whether a string ends with ['/']. *)
Fixpoint ends_with_slash (s : string) : bool :=
  match s with
  | EmptyString => false
  | String c EmptyString => Ascii.eqb c "/"%char
  | String _ s' => ends_with_slash s'
  end.

(** * Proofs *)

(** ** Classifier *)

Lemma bucket_push (bs : Buckets) (b b' : Bucket) (pr x : UnifiedPullRequest) :
  In x (bucket (push b' pr bs) b) <-> In x (bucket bs b) \/ (b = b' /\ x = pr).
Proof.
  destruct bs as [r rr y w ay ao].
  destruct b', b; simpl; rewrite ?in_app_iff; simpl;
    intuition (try discriminate; subst; auto).
Qed.

Lemma bucket_fold (d : list UnifiedPullRequest) (bs : Buckets) (b : Bucket)
    (x : UnifiedPullRequest) :
  In x (bucket (fold_left (fun bs pr =>
                  match categorize pr with Some b => push b pr bs | None => bs end)
                d bs) b)
  <-> In x (bucket bs b) \/ (In x d /\ categorize x = Some b).
Proof.
  revert bs; induction d as [|pr d IH]; intros bs; simpl.
  - intuition.
  - rewrite IH.
    destruct (categorize pr) as [b'|] eqn:Hc.
    + rewrite bucket_push. split.
      * intros [[H|[-> ->]]|[H1 H2]]; auto.
      * intros [H|[[<-|H1] H2]]; auto.
        left; right; split; congruence.
    + split.
      * intros [H|[H1 H2]]; auto.
      * intros [H|[[<-|H1] H2]]; auto. congruence.
Qed.

(** An item is in bucket [b] of [sections d] exactly when it is in [d] and
    the [if] chain sends it to [b]. *)
Lemma sections_bucket (d : list UnifiedPullRequest) (b : Bucket)
    (x : UnifiedPullRequest) :
  In x (bucket (sections d) b) <-> In x d /\ categorize x = Some b.
Proof.
  unfold sections. rewrite bucket_fold. destruct b; simpl; intuition.
Qed.

Lemma categorize_code_table (pr : UnifiedPullRequest) :
  categorize pr = first_match code_table pr.
Proof. reflexivity. Qed.

(** Claim C1 (amended).  The classifier places an item of the aggregated
    sequence in bucket [b] exactly when the item is in the sequence and [b]
    is the first bucket of the code's six-bucket table whose condition it
    satisfies, in the order: Returned to you (isAuthor and (overall =
    changes_requested or pipeline = failed)); Review requested (isReviewer
    and myReviewState = pending); Approved by you (isReviewer and
    myReviewState = approved); Approved by others (isAuthor and overall =
    approved); Waiting for approvals (isAuthor and given < required); Your
    merge requests (isAuthor).  An item matching none is in no bucket. *)
Theorem sections_first_match (d : list UnifiedPullRequest) (b : Bucket)
    (pr : UnifiedPullRequest) :
  In pr (bucket (sections d) b) <-> In pr d /\ first_match code_table pr = Some b.
Proof.
  rewrite sections_bucket, categorize_code_table. reflexivity.
Qed.

(** Claim C1 (counterexample).  An item authored by and also reviewed by the
    current user, with its own review pending and the item approved, is
    "Approved by others" in the specification's order but lands in "Review
    requested"; a non-author reviewer whose own state is [commented] is
    "Waiting for the author" in the specification but lands in no bucket,
    since the code has no such bucket. *)
Lemma sections_spec_order_counterexample :
  let x := sample_item true true pending approved ps_success 1 1 in
  let y := sample_item false true commented pending ps_success 0 1 in
  first_match spec_table x = Some S_ApprovedByOthers /\
  In x (bucket (sections [x]) reviewRequested) /\
  ~ In x (bucket (sections [x]) approvedByOthers) /\
  first_match spec_table y = Some S_WaitingForTheAuthor /\
  (forall b, ~ In y (bucket (sections [y]) b)).
Proof.
  cbn zeta. repeat split.
  - simpl. auto.
  - simpl. tauto.
  - intros b. rewrite sections_bucket. simpl. intros [_ H]. discriminate.
Qed.

(** Claim C6.  No item of the aggregated sequence is in two different
    buckets of the classifier: each item is in exactly one bucket or in
    none. *)
Theorem sections_at_most_one_bucket (d : list UnifiedPullRequest)
    (pr : UnifiedPullRequest) (b1 b2 : Bucket) :
  In pr (bucket (sections d) b1) -> In pr (bucket (sections d) b2) -> b1 = b2.
Proof.
  rewrite !sections_bucket. intros [_ H1] [_ H2]. congruence.
Qed.

(** A collection in which a returned item is found in the returned bucket. *)
Lemma sections_at_most_one_bucket_witness :
  let it := sample_item true true pending changes_requested ps_success 0 1 in
  In it (bucket (sections [it]) returned) /\ returned = returned.
Proof.
  intros it.
  assert (H : In it (bucket (sections [it]) returned)) by (vm_compute; left; reflexivity).
  split; [exact H|].
  exact (sections_at_most_one_bucket [it] it returned returned H H).
Defined.

(** ** Maps and sets as association lists *)

Lemma set_has_set_add (k lg : string) (s : list string) :
  set_has lg (set_add k s) = String.eqb lg k || set_has lg s.
Proof.
  unfold set_add, set_has.
  destruct (existsb (String.eqb k) s) eqn:E.
  - destruct (String.eqb lg k) eqn:E2; simpl; auto.
    apply String.eqb_eq in E2; subst. exact E.
  - rewrite existsb_app. simpl. rewrite orb_false_r, orb_comm. reflexivity.
Qed.

Lemma set_has_In (lg : string) (s : list string) :
  set_has lg s = true <-> In lg s.
Proof.
  unfold set_has. rewrite existsb_exists. split.
  - intros [x [Hx E]]. apply String.eqb_eq in E. subst. exact Hx.
  - intros H. exists lg. split; auto. apply String.eqb_refl.
Qed.

Lemma map_set_keys {V} (k k' : string) (v : V) (m : list (string * V)) :
  In k' (map fst (map_set k v m)) <-> k' = k \/ In k' (map fst m).
Proof.
  induction m as [|[k0 v0] m IH]; simpl.
  - intuition.
  - destruct (String.eqb k k0) eqn:E; simpl.
    + apply String.eqb_eq in E. subst. intuition.
    + rewrite IH. intuition.
Qed.

Lemma map_set_nodup {V} (k : string) (v : V) (m : list (string * V)) :
  NoDup (map fst m) -> NoDup (map fst (map_set k v m)).
Proof.
  induction m as [|[k0 v0] m IH]; simpl; intros Hnd.
  - constructor; [simpl; tauto | constructor].
  - inversion Hnd as [|? ? Hnin Hnd']; subst.
    destruct (String.eqb k k0) eqn:E; simpl.
    + apply String.eqb_eq in E. subst. constructor; auto.
    + constructor; auto.
      rewrite map_set_keys. intros [->|H]; auto.
      rewrite String.eqb_refl in E. discriminate.
Qed.

Lemma map_get_In {V} (k : string) (v : V) (m : list (string * V)) :
  map_get k m = Some v -> In (k, v) m.
Proof.
  induction m as [|[k0 v0] m IH]; simpl; [discriminate|].
  destruct (String.eqb k k0) eqn:E.
  - apply String.eqb_eq in E. intros [= <-]. subst. auto.
  - intros H. right. auto.
Qed.

Lemma In_map_get {V} (k : string) (v : V) (m : list (string * V)) :
  NoDup (map fst m) -> In (k, v) m -> map_get k m = Some v.
Proof.
  induction m as [|[k0 v0] m IH]; simpl; [tauto|].
  intros Hnd Hin. inversion Hnd as [|? ? Hnin Hnd']; subst.
  destruct (String.eqb k k0) eqn:E.
  - apply String.eqb_eq in E. subst.
    destruct Hin as [[= <-]|Hin]; auto.
    exfalso. apply Hnin. apply (in_map fst) in Hin. exact Hin.
  - destruct Hin as [[= -> ->]|Hin].
    + rewrite String.eqb_refl in E. discriminate.
    + auto.
Qed.

(** ** GitHub reviewer-state resolution *)

Lemma replay_review_nodup (st : list (string * option Binding) * list string)
    (r : GhReviewNode) :
  NoDup (map fst (fst st)) -> NoDup (map fst (fst (replay_review st r))).
Proof.
  destruct st as [latest c]. unfold replay_review. simpl. intros Hnd.
  destruct (actor_login (rn_author r)) as [lg|]; simpl; auto.
  repeat match goal with
         | |- context [if ?b then _ else _] => destruct b
         end; simpl; auto using map_set_nodup.
Qed.

Lemma gh_replay_nodup (pr : GhPR) : NoDup (map fst (fst (gh_replay pr))).
Proof.
  unfold gh_replay.
  assert (H : forall rs st, NoDup (map fst (fst st)) ->
            NoDup (map fst (fst (fold_left replay_review rs st)))).
  { induction rs as [|r rs IH]; simpl; intros st Hnd; auto.
    apply IH. apply replay_review_nodup. exact Hnd. }
  apply H. constructor.
Qed.

Lemma logins_with_fold (v : Binding) (m : list (string * option Binding))
    (acc : list string) (lg : string) :
  set_has lg (fold_left (fun acc '(lg, st) =>
      match st, v with
      | Some B_APPROVED, B_APPROVED
      | Some B_CHANGES_REQUESTED, B_CHANGES_REQUESTED => set_add lg acc
      | _, _ => acc
      end) m acc) = true
  <-> set_has lg acc = true \/ In (lg, Some v) m.
Proof.
  revert acc; induction m as [|[k st] m IH]; intros acc; simpl.
  - intuition.
  - rewrite IH.
    destruct st as [[|]|], v; rewrite ?set_has_set_add, ?orb_true_iff,
      ?String.eqb_eq; intuition (try congruence; subst; auto).
Qed.

Lemma logins_with_has (v : Binding) (m : list (string * option Binding)) (lg : string) :
  set_has lg (logins_with v m) = true <-> In (lg, Some v) m.
Proof.
  unfold logins_with. rewrite logins_with_fold. simpl. intuition discriminate.
Qed.

(** Claim C2.  For every reviewer of a mapped GitHub pull request whose
    latest binding state, after replaying the review submissions in
    submission-time order, is [CHANGES_REQUESTED]: the reviewer's status is
    [pending] when the reviewer is currently (re-)requested for review, and
    [changes_requested] otherwise. *)
Theorem gh_rerequested_changes_pending (pr : GhPR) (cur : string)
    (upr : UnifiedPullRequest) (r : Reviewer) :
  mapGithubToUnified pr cur = inr upr ->
  In r (reviewers upr) ->
  map_get (rv_username r) (fst (gh_replay pr)) = Some (Some B_CHANGES_REQUESTED) ->
  status r = if is_requested (gh_requestedReviewers pr) (rv_username r)
             then pending else changes_requested.
Proof.
  intros Hmap Hin Hget.
  pose proof (gh_replay_nodup pr) as Hnd.
  unfold mapGithubToUnified in Hmap.
  destruct (gh_author pr) as [a|]; [|discriminate].
  destruct (gh_replay pr) as [latest c0] eqn:Hr. simpl in Hget, Hnd.
  unfold ret in Hmap. injection Hmap as <-. simpl in Hin.
  apply in_map_iff in Hin as [lg [<- _]]. simpl in *.
  unfold gh_reviewer_status.
  assert (Happ : set_has lg (logins_with B_APPROVED latest) = false).
  { destruct (set_has lg (logins_with B_APPROVED latest)) eqn:E; auto.
    apply logins_with_has in E. apply In_map_get in E; auto. congruence. }
  assert (Hcr : set_has lg (logins_with B_CHANGES_REQUESTED latest) = true).
  { apply logins_with_has. apply map_get_In. exact Hget. }
  rewrite Happ, Hcr. reflexivity.
Qed.

(** [bob] requested changes on [sample_gh_pr] and was re-requested: his
    status is [pending]. *)
Lemma gh_rerequested_changes_pending_witness :
  exists upr, mapGithubToUnified sample_gh_pr "alice" = inr upr /\
    exists r, In r (reviewers upr) /\ rv_username r = "bob" /\
      map_get "bob" (fst (gh_replay sample_gh_pr)) = Some (Some B_CHANGES_REQUESTED) /\
      is_requested (gh_requestedReviewers sample_gh_pr) "bob" = true /\
      status r = pending.
Proof.
  destruct (mapGithubToUnified sample_gh_pr "alice") as [e|upr] eqn:E.
  { vm_compute in E. discriminate. }
  exists upr. split; [reflexivity|].
  pose proof E as E'. vm_compute in E'. injection E' as <-.
  eexists. split; [left; reflexivity|].
  split; [reflexivity|]. split; [vm_compute; reflexivity|].
  split; [vm_compute; reflexivity|].
  rewrite (gh_rerequested_changes_pending sample_gh_pr "alice" _ _ E (or_introl eq_refl)
             ltac:(vm_compute; reflexivity)).
  vm_compute. reflexivity.
Defined.

(** ** GitLab mapper *)

Lemma count_discussions_fold (ds : list GlDiscussion) (r t : nat) :
  fold_left (fun '(resolvedCount, totalResolvable) d =>
      if d_resolvable d then
        (if d_resolved d then S resolvedCount else resolvedCount, S totalResolvable)
      else (resolvedCount, totalResolvable)) ds (r, t)
  = (r + length (filter (fun d => d_resolvable d && d_resolved d) ds),
     t + length (filter d_resolvable ds))%nat.
Proof.
  revert r t; induction ds as [|d ds IH]; intros r t; simpl.
  - f_equal; lia.
  - destruct (d_resolvable d), (d_resolved d); simpl; rewrite IH; f_equal; lia.
Qed.

Lemma count_discussions_spec (ds : list GlDiscussion) :
  count_discussions ds =
  (length (filter (fun d => d_resolvable d && d_resolved d) ds),
   length (filter d_resolvable ds)).
Proof. unfold count_discussions. rewrite count_discussions_fold. reflexivity. Qed.

(** Claim C7.  For a mapped GitLab merge request, [commentStats.total] is the
    number of discussion threads flagged resolvable and
    [commentStats.resolved] the number of those marked resolved (a thread
    with [resolvable = false] is counted in neither), and the comment stats
    do not depend on the raw [userNotesCount] field. *)
Theorem gl_comment_stats (mr : GlMR) (cur base : string) (upr : UnifiedPullRequest) :
  mapGitlabToUnified mr cur base = inr upr ->
  total (commentStats upr) = length (filter d_resolvable (opt_list (discussions mr))) /\
  resolved (commentStats upr) =
    length (filter (fun d => d_resolvable d && d_resolved d) (opt_list (discussions mr))) /\
  (forall n upr', mapGitlabToUnified (with_userNotesCount mr n) cur base = inr upr' ->
     commentStats upr' = commentStats upr).
Proof.
  intros H.
  assert (Hcs : forall m u, mapGitlabToUnified m cur base = inr u ->
            commentStats u =
            mkCommentStats
              (length (filter (fun d => d_resolvable d && d_resolved d)
                         (opt_list (discussions m))))
              (length (filter d_resolvable (opt_list (discussions m))))).
  { intros m u Hm. unfold mapGitlabToUnified in Hm.
    rewrite count_discussions_spec in Hm.
    destruct (project m); [|discriminate].
    injection Hm as <-. reflexivity. }
  rewrite (Hcs _ _ H). simpl. split; [reflexivity|split; [reflexivity|]].
  intros n u' H'. rewrite (Hcs _ _ H'). reflexivity.
Qed.

(** [sample_gl_mr] has two resolvable discussions, one resolved. *)
Lemma gl_comment_stats_witness :
  exists upr, mapGitlabToUnified (sample_gl_mr "7" "Fix" 900%Z) "alice" "https://gitlab.com" = inr upr /\
    total (commentStats upr) = 2%nat /\ resolved (commentStats upr) = 1%nat.
Proof.
  destruct (mapGitlabToUnified (sample_gl_mr "7" "Fix" 900%Z) "alice" "https://gitlab.com")
    as [e|upr] eqn:E.
  { vm_compute in E. discriminate. }
  exists upr. split; [reflexivity|].
  destruct (gl_comment_stats _ _ _ _ E) as [Ht [Hr _]].
  rewrite Ht, Hr. split; vm_compute; reflexivity.
Defined.

(** Claim C10 (amended).  The GitLab mapper does not remove the author from
    the reviewer set: when the current user is the merge request's author
    and also appears among its [reviewers] nodes, the unified entity has both
    [isAuthor] and [isReviewer] true. *)
Theorem gl_author_also_reviewer (mr : GlMR) (cur base : string)
    (upr : UnifiedPullRequest) (a : GlUser) :
  mapGitlabToUnified mr cur base = inr upr ->
  gl_author mr = Some a -> gu_username a = Some cur ->
  In cur (map gr_username (opt_list (gl_reviewers mr))) ->
  isAuthor upr = true /\ isReviewer upr = true.
Proof.
  intros Hm Ha Hu Hin. unfold mapGitlabToUnified in Hm.
  destruct (count_discussions _) as [rc tr].
  destruct (project mr); [|discriminate].
  injection Hm as <-. simpl. rewrite Ha, Hu. simpl. split.
  - apply String.eqb_refl.
  - apply existsb_exists. apply in_map_iff in Hin as [r [Hr Hr']].
    exists (mkReviewer (gr_name r) (resolveAvatar base (gr_avatarUrl r))
              (gr_username r) (gl_reviewer_status
                 (fold_left (fun acc u => set_add u acc) (opt_list (approvedBy mr)) []) r)).
    split.
    + apply in_map_iff. exists r. auto.
    + simpl. rewrite Hr. apply String.eqb_refl.
Qed.

(** [alice] authored [sample_gl_mr] and is one of its reviewers. *)
Lemma gl_author_also_reviewer_witness :
  exists upr, mapGitlabToUnified (sample_gl_mr "7" "Fix" 900%Z) "alice" "https://gitlab.com" = inr upr /\
    isAuthor upr = true /\ isReviewer upr = true.
Proof.
  destruct (mapGitlabToUnified (sample_gl_mr "7" "Fix" 900%Z) "alice" "https://gitlab.com")
    as [e|upr] eqn:E.
  { vm_compute in E. discriminate. }
  exists upr. split; [reflexivity|].
  exact (gl_author_also_reviewer _ _ _ _ (mkGlUser (Some "alice") (Some "Alice") (Some "/uploads/a.png"))
           E eq_refl ltac:(reflexivity) ltac:(vm_compute; left; reflexivity)).
Defined.

(** Claim C10 (counterexample).  The (most recent) GitHub mapper does not
    exclude the author from the reviewer set: on [sample_gh_pr], authored by
    [alice] who also commented on it, the entity mapped for [alice] has both
    [isAuthor] and [isReviewer] true.  (And a GitLab author listed as a
    reviewer gives [isAuthor = false] when the current user is someone
    else.) *)
Lemma gh_author_is_reviewer_counterexample :
  match mapGithubToUnified sample_gh_pr "alice" with
  | inr u => isAuthor u && isReviewer u
  | inl _ => false
  end = true /\
  match mapGitlabToUnified (sample_gl_mr "7" "Fix" 0%Z) "bob" "https://gitlab.com" with
  | inr u => isAuthor u
  | inl _ => true
  end = false.
Proof. split; vm_compute; reflexivity. Qed.

(** ** GitLab deduplication *)

Lemma gl_key_ok (mr : GlMR) :
  has_project mr = true -> gl_key mr = inr (gl_key_str mr).
Proof. unfold has_project, gl_key, gl_key_str, ret. destruct (project mr); intros; congruence. Qed.

Lemma addList_fold_ok (l : list GlMR) (m : list (string * GlMR)) :
  forallb has_project l = true ->
  fold_left (fun acc mr => m <- acc ;; k <- gl_key mr ;; ret (map_set k mr m))
    l (inr m) = inr (fold_left dedup_step l m).
Proof.
  revert m; induction l as [|mr l IH]; intros m Hp; simpl in *; auto.
  apply andb_true_iff in Hp as [H1 H2].
  rewrite (gl_key_ok mr H1). simpl. apply IH. exact H2.
Qed.

Lemma addList_ok (o : option (list GlMR)) (m : list (string * GlMR)) :
  forallb has_project (opt_list o) = true ->
  addList m o = inr (fold_left dedup_step (opt_list o) m).
Proof.
  destruct o as [l|]; simpl; intros Hp; auto. apply addList_fold_ok. exact Hp.
Qed.

Lemma fetchGitlab_try_ok (cleanHost : string) (st : Z) (json : GlBody)
    (cu : GlCurrentUser) :
  gl_errors json = None -> currentUser json = Some cu ->
  forallb has_project (gl_all_mrs cu) = true ->
  fetchGitlab_try cleanHost (Response st (Some json)) =
  mapM (fun kv => mapGitlabToUnified (snd kv) (cu_username cu) cleanHost)
    (fold_left dedup_step (gl_all_mrs cu) []).
Proof.
  intros He Hc Hp. simpl. rewrite He, Hc.
  unfold gl_all_mrs in *. rewrite !forallb_app in Hp.
  apply andb_true_iff in Hp as [Ha Hp]. apply andb_true_iff in Hp as [Hb Hr].
  rewrite (addList_ok _ _ Ha). simpl.
  rewrite (addList_ok _ _ Hb). simpl.
  rewrite (addList_ok _ _ Hr). simpl.
  rewrite !fold_left_app. reflexivity.
Qed.

Lemma map_set_fst {V} (k : string) (v : V) (m : list (string * V)) :
  map fst (map_set k v m) = set_add k (map fst m).
Proof.
  induction m as [|[k0 v0] m IH]; simpl; [reflexivity|].
  unfold set_add in *. simpl.
  destruct (String.eqb k k0) eqn:E; simpl.
  - apply String.eqb_eq in E. subst. reflexivity.
  - rewrite IH. destruct (existsb (String.eqb k) (map fst m)); reflexivity.
Qed.

Lemma dedup_keys (l : list GlMR) (m : list (string * GlMR)) (acc : list string) :
  map fst m = acc ->
  map fst (fold_left dedup_step l m) =
  fold_left (fun acc mr => set_add (gl_key_str mr) acc) l acc.
Proof.
  revert m acc; induction l as [|mr l IH]; intros m acc Hm; simpl; auto.
  apply IH. unfold dedup_step. rewrite map_set_fst, Hm. reflexivity.
Qed.

Lemma map_get_map_set {V} (k k' : string) (v : V) (m : list (string * V)) :
  map_get k (map_set k' v m) = if String.eqb k' k then Some v else map_get k m.
Proof.
  induction m as [|[k0 v0] m IH]; simpl.
  - destruct (String.eqb_spec k k'), (String.eqb_spec k' k); subst; congruence.
  - destruct (String.eqb_spec k' k0) as [->|Hne]; simpl.
    + destruct (String.eqb_spec k k0), (String.eqb_spec k0 k); subst; congruence.
    + rewrite IH.
      destruct (String.eqb_spec k k0), (String.eqb_spec k' k); subst; congruence.
Qed.

Lemma dedup_get (k : string) (l : list GlMR) (m : list (string * GlMR)) :
  map_get k (fold_left dedup_step l m) =
  fold_left (fun acc mr => if String.eqb (gl_key_str mr) k then Some mr else acc)
    l (map_get k m).
Proof.
  revert m; induction l as [|mr l IH]; intros m; simpl; auto.
  rewrite IH. unfold dedup_step. rewrite map_get_map_set. reflexivity.
Qed.

Lemma map_set_In {V} (k : string) (v : V) (m : list (string * V)) (kv : string * V) :
  In kv (map_set k v m) -> kv = (k, v) \/ In kv m.
Proof.
  induction m as [|[k0 v0] m IH]; simpl.
  - intuition.
  - destruct (String.eqb k k0); simpl; intuition.
Qed.

Lemma dedup_entries (l : list GlMR) (m : list (string * GlMR)) (kv : string * GlMR) :
  In kv (fold_left dedup_step l m) ->
  In kv m \/ (In (snd kv) l /\ fst kv = gl_key_str (snd kv)).
Proof.
  revert m; induction l as [|mr l IH]; intros m H; simpl in *; auto.
  apply IH in H as [H|[H1 H2]]; auto.
  apply map_set_In in H as [->|H]; simpl; auto.
Qed.

Lemma set_add_nodup (k : string) (s : list string) :
  NoDup s -> NoDup (set_add k s).
Proof.
  unfold set_add. destruct (existsb (String.eqb k) s) eqn:E; auto.
  intros Hnd. apply NoDup_app; auto.
  - constructor; [simpl; tauto|constructor].
  - intros x Hx [Hkx|[]]. subst x.
    assert (Hh : set_has k s = true) by (apply set_has_In; auto).
    unfold set_has in Hh. congruence.
Qed.

Lemma first_seen_keys_nodup (l : list GlMR) : NoDup (first_seen_keys l).
Proof.
  unfold first_seen_keys.
  assert (H : forall acc, NoDup acc ->
            NoDup (fold_left (fun acc mr => set_add (gl_key_str mr) acc) l acc)).
  { induction l as [|mr l IH]; intros acc Hnd; simpl; auto.
    apply IH. apply set_add_nodup. exact Hnd. }
  apply H. constructor.
Qed.

Lemma mapM_Forall2 {A B} (f : A -> Exc B) (P : A -> B -> Prop) (l : list A) :
  (forall x, In x l -> exists y, f x = inr y /\ P x y) ->
  exists ys, mapM f l = inr ys /\ Forall2 P l ys.
Proof.
  induction l as [|x l IH]; simpl; intros H.
  - exists []. split; auto.
  - destruct (H x (or_introl eq_refl)) as [y [Hy Py]].
    destruct IH as [ys [Hys Pys]]; [intros z Hz; apply H; auto|].
    exists (y :: ys). rewrite Hy. simpl. rewrite Hys. simpl. auto.
Qed.

Lemma mapGitlabToUnified_ok (mr : GlMR) (cur base : string) :
  has_project mr = true ->
  exists u, mapGitlabToUnified mr cur base = inr u /\ uniqueKey u = gl_key_str mr.
Proof.
  unfold has_project, mapGitlabToUnified, gl_key_str. intros Hp.
  destruct (count_discussions _) as [rc tr].
  destruct (project mr); [|discriminate].
  eexists. split; reflexivity.
Qed.

Lemma last_with_key_keep (k : string) (l : list GlMR) (a : option GlMR) (mr0 : GlMR) :
  a = Some mr0 -> gl_key_str mr0 = k ->
  exists mr', fold_left (fun acc mr => if String.eqb (gl_key_str mr) k then Some mr else acc)
                l a = Some mr' /\ (mr' = mr0 \/ In mr' l) /\ gl_key_str mr' = k.
Proof.
  revert a mr0; induction l as [|y l IH]; intros a mr0 Ha Hk; simpl.
  - exists mr0. subst. auto.
  - destruct (String.eqb_spec (gl_key_str y) k) as [Hy|Hy].
    + destruct (IH (Some y) y eq_refl Hy) as [z [Hz [[Hz'|Hz'] Hk']]];
        exists z; subst; auto.
    + destruct (IH a mr0 Ha Hk) as [z [Hz [[Hz'|Hz'] Hk']]]; exists z; auto.
Qed.

Lemma last_with_key_found (k : string) (l : list GlMR) (acc : option GlMR) (mr : GlMR) :
  In mr l -> gl_key_str mr = k ->
  exists mr', fold_left (fun acc mr => if String.eqb (gl_key_str mr) k then Some mr else acc)
                l acc = Some mr' /\ In mr' l /\ gl_key_str mr' = k.
Proof.
  revert acc; induction l as [|y l IH]; intros acc Hin Hk; [destruct Hin|]. simpl.
  destruct Hin as [->|Hin].
  - rewrite Hk, String.eqb_refl.
    destruct (last_with_key_keep k l (Some mr) mr eq_refl Hk) as [z [Hz [[Hz'|Hz'] Hk']]];
      exists z; simpl; auto.
  - destruct (IH (if String.eqb (gl_key_str y) k then Some y else acc) Hin Hk)
      as [z [Hz [Hz' Hk']]]. exists z. simpl. auto.
Qed.

Lemma Forall2_In_left {A B} (P : A -> B -> Prop) (l : list A) (ys : list B) (x : A) :
  Forall2 P l ys -> In x l -> exists y, In y ys /\ P x y.
Proof.
  induction 1 as [|a b l' ys' Hab _ IH]; simpl; [tauto|].
  intros [<-|Hx]; [exists b; auto|].
  destruct (IH Hx) as [y [Hy Py]]. exists y. auto.
Qed.

(** On a response without errors whose merge requests all have a project,
    the adapter maps the deduplicated map [m3] entry by entry. *)
Lemma gl_fetch_ok (host tok : string) (st : Z) (json : GlBody) (cu : GlCurrentUser) :
  gl_errors json = None -> currentUser json = Some cu ->
  forallb has_project (gl_all_mrs cu) = true ->
  exists out, fetchGitlabMRs host tok (Response st (Some json)) = inr out /\
    Forall2 (fun kv u =>
               mapGitlabToUnified (snd kv) (cu_username cu) (strip_trailing_slash host)
               = inr u /\ uniqueKey u = fst kv)
            (fold_left dedup_step (gl_all_mrs cu) []) out /\
    map uniqueKey out = first_seen_keys (gl_all_mrs cu).
Proof.
  intros He Hc Hp.
  set (all := gl_all_mrs cu) in *.
  set (m3 := fold_left dedup_step all []).
  set (base := strip_trailing_slash host).
  assert (Hent : forall kv, In kv m3 -> In (snd kv) all /\ fst kv = gl_key_str (snd kv)).
  { intros kv Hkv. apply dedup_entries in Hkv as [[]|H]. exact H. }
  destruct (mapM_Forall2 (fun kv => mapGitlabToUnified (snd kv) (cu_username cu) base)
              (fun kv u => mapGitlabToUnified (snd kv) (cu_username cu) base = inr u /\
                           uniqueKey u = fst kv) m3) as [out [Hout HF]].
  { intros kv Hkv. destruct (Hent kv Hkv) as [Hin Hk].
    assert (Hpj : has_project (snd kv) = true).
    { apply forallb_forall with (x := snd kv) in Hp; auto. }
    destruct (mapGitlabToUnified_ok (snd kv) (cu_username cu) base Hpj) as [u [Hu Hku]].
    exists u. rewrite Hu, Hku, Hk. auto. }
  exists out. split; [|split; [exact HF|]].
  - unfold fetchGitlabMRs. fold base.
    rewrite (fetchGitlab_try_ok base st json cu He Hc Hp). fold all m3. rewrite Hout.
    reflexivity.
  - transitivity (map fst m3).
    + clear -HF. induction HF as [|kv u l ys [_ H] _ IH]; simpl; congruence.
    + unfold m3, first_seen_keys. apply dedup_keys. reflexivity.
Qed.

(** Claim C3 (amended).  When the GitLab response carries no errors and
    every listed merge request has a project, the adapter's output holds
    exactly one entity per [project-path#iid] key: the keys of the output
    are the keys of the three result sets (scanned authored, assigned,
    review-requested), each once at its first-seen position, and the entity
    of a key is built from the LAST occurrence of that key in the scan
    (later result sets overwrite earlier ones). *)
Theorem gl_dedup_one_entity_per_key (host tok : string) (st : Z) (json : GlBody)
    (cu : GlCurrentUser) :
  gl_errors json = None -> currentUser json = Some cu ->
  forallb has_project (gl_all_mrs cu) = true ->
  exists out, fetchGitlabMRs host tok (Response st (Some json)) = inr out /\
    map uniqueKey out = first_seen_keys (gl_all_mrs cu) /\
    NoDup (map uniqueKey out) /\
    (forall mr, In mr (gl_all_mrs cu) ->
       exists mr' u, last_with_key (gl_key_str mr) (gl_all_mrs cu) = Some mr' /\
         mapGitlabToUnified mr' (cu_username cu) (strip_trailing_slash host) = inr u /\
         In u out /\ uniqueKey u = gl_key_str mr).
Proof.
  intros He Hc Hp.
  destruct (gl_fetch_ok host tok st json cu He Hc Hp) as [out [Hout [HF Hkeys]]].
  exists out. split; [exact Hout|split; [exact Hkeys|split]].
  - rewrite Hkeys. apply first_seen_keys_nodup.
  - intros mr Hmr.
    destruct (last_with_key_found (gl_key_str mr) (gl_all_mrs cu) None mr Hmr eq_refl)
      as [mr' [Hl [Hin' Hk']]].
    assert (Hget : map_get (gl_key_str mr) (fold_left dedup_step (gl_all_mrs cu) [])
                   = Some mr').
    { rewrite dedup_get. exact Hl. }
    apply map_get_In in Hget.
    destruct (Forall2_In_left _ _ _ _ HF Hget) as [u [Hu [Hmap Hku]]].
    exists mr', u. simpl in *. auto.
Qed.

(** The same merge request listed as authored ("First") and as review
    requested ("Second"). *)
Lemma gl_dedup_one_entity_per_key_witness :
  exists out, fetchGitlabMRs "https://gitlab.com/" "glpat_token"
                (Response 200%Z (Some (sample_gl_body [sample_gl_mr "7" "First" 900%Z]
                                                      [sample_gl_mr "7" "Second" 950%Z])))
              = inr out /\ map uniqueKey out = ["web#7"] /\ NoDup (map uniqueKey out).
Proof.
  destruct (gl_dedup_one_entity_per_key "https://gitlab.com/" "glpat_token" 200%Z
              (sample_gl_body [sample_gl_mr "7" "First" 900%Z] [sample_gl_mr "7" "Second" 950%Z])
              (mkGlCurrentUser "alice" (Some [sample_gl_mr "7" "First" 900%Z]) None
                 (Some [sample_gl_mr "7" "Second" 950%Z]))
              ltac:(reflexivity) ltac:(reflexivity) ltac:(vm_compute; reflexivity))
    as [out [Hout [Hkeys [Hnd _]]]].
  exists out. split; [exact Hout|]. split; [|exact Hnd].
  rewrite Hkeys. vm_compute. reflexivity.
Defined.

(** Claim C3 (counterexample).  Merge request [web#7] listed as authored
    with title "First" and as review-requested with title "Second": the
    output holds one entity for the key, built from the later,
    review-requested occurrence, not the first-seen one. *)
Lemma gl_dedup_first_seen_counterexample :
  match fetchGitlabMRs "https://gitlab.com" "tok"
          (Response 200 (Some (sample_gl_body [sample_gl_mr "7" "First" 0%Z]
                                              [sample_gl_mr "7" "Second" 0%Z]))) with
  | inr [u] => title u
  | _ => ""
  end = "Second".
Proof. vm_compute. reflexivity. Qed.

(** ** GitLab failure policy *)

(** Claim C4 (amended).  [fetchGitlabMRs] never rejects, whatever the
    transport outcome; it resolves to the empty list on a network error, on
    a body that is not JSON, on a body with a GraphQL [errors] payload, and on
    a body without [data.currentUser]; and its result depends on the body
    only, not on the HTTP status (the status is never checked). *)
Theorem gitlab_failures_swallowed (host tok : string) :
  (forall tr, exists l, fetchGitlabMRs host tok tr = inr l) /\
  fetchGitlabMRs host tok NetworkError = inr [] /\
  (forall st, fetchGitlabMRs host tok (Response st None) = inr []) /\
  (forall st es cu,
     fetchGitlabMRs host tok (Response st (Some (mkGlBody (Some es) cu))) = inr []) /\
  (forall st, fetchGitlabMRs host tok (Response st (Some (mkGlBody None None))) = inr []) /\
  (forall st st' b,
     fetchGitlabMRs host tok (Response st b) = fetchGitlabMRs host tok (Response st' b)).
Proof.
  unfold fetchGitlabMRs. split; [|split; [|split; [|split; [|split]]]].
  - intros tr. destruct (fetchGitlab_try _ tr); eexists; reflexivity.
  - reflexivity.
  - reflexivity.
  - intros st es cu. destruct es; reflexivity.
  - reflexivity.
  - intros st st' b. reflexivity.
Qed.

(** Claim C4 (counterexample).  A non-2xx response (HTTP 500) whose body
    carries a well-formed [data.currentUser] payload is not treated as a
    failure: the adapter returns the mapped merge request, not [[]]. *)
Lemma gitlab_non2xx_counterexample :
  fetchGitlabMRs "https://gitlab.com" "tok"
    (Response 500 (Some (sample_gl_body [sample_gl_mr "7" "Fix" 0%Z] [])))
  <> inr [].
Proof. vm_compute. discriminate. Qed.

(** ** Aggregator ordering *)

Lemma sort_insert_In {A} (cmp : A -> A -> Z) (x y : A) (l : list A) :
  In y (sort_insert cmp x l) <-> y = x \/ In y l.
Proof.
  induction l as [|z l IH]; simpl.
  - intuition.
  - destruct (0 <? cmp x z)%Z; simpl; rewrite ?IH; intuition.
Qed.

Lemma sort_insert_sorted (x : UnifiedPullRequest) (l : list UnifiedPullRequest) :
  StronglySorted (fun a b => updatedAt b <= updatedAt a)%Z l ->
  StronglySorted (fun a b => updatedAt b <= updatedAt a)%Z
    (sort_insert by_updatedAt_desc x l).
Proof.
  induction l as [|y l IH]; simpl; intros Hs.
  - repeat constructor.
  - apply StronglySorted_inv in Hs as [Hs Hy].
    unfold by_updatedAt_desc.
    destruct (Z.ltb_spec 0 (updatedAt y - updatedAt x)) as [Hlt|Hge].
    + constructor; [apply IH; exact Hs|].
      apply Forall_forall. intros z Hz. apply sort_insert_In in Hz as [->|Hz].
      * lia.
      * rewrite Forall_forall in Hy. apply Hy. exact Hz.
    + constructor; [constructor; auto|].
      constructor; [lia|].
      rewrite Forall_forall in Hy |- *. intros z Hz. specialize (Hy z Hz). lia.
Qed.

Lemma js_sort_sorted (l : list UnifiedPullRequest) :
  StronglySorted (fun a b => updatedAt b <= updatedAt a)%Z (js_sort by_updatedAt_desc l).
Proof.
  induction l as [|x l IH]; simpl.
  - constructor.
  - apply sort_insert_sorted. exact IH.
Qed.

Lemma StronglySorted_nth {A} (R : A -> A -> Prop) (l : list A) (i j : nat) (d : A) :
  StronglySorted R l -> (i < j < length l)%nat -> R (nth i l d) (nth j l d).
Proof.
  revert i j; induction l as [|x l IH]; intros i j Hs Hij; simpl in *; [lia|].
  apply StronglySorted_inv in Hs as [Hs Hx].
  destruct i as [|i], j as [|j]; try lia.
  - rewrite Forall_forall in Hx. apply Hx. apply nth_In. lia.
  - apply IH; auto. lia.
Qed.

Lemma fetchData_data (s : AppSettings) (gh : Transport GhBody) (gl : Transport GlBody) :
  data (fetchData s gh gl) = [] \/
  exists rs, data (fetchData s gh gl) = js_sort by_updatedAt_desc (concat rs) /\
             promise_all (List.app
               (if nonempty (githubToken s) && nonempty (githubUsername s)
                then [tag_error "GitHub" (fetchGithubPRs (githubToken s) (githubUsername s) gh)]
                else [])
               (if nonempty (gitlabToken s) && nonempty (gitlabUsername s)
                then [tag_error "GitLab" (fetchGitlabMRs (gitlabHost s) (gitlabToken s) gl)]
                else [])) = inr rs.
Proof.
  unfold fetchData.
  destruct (List.app _ _) as [|p ps]; [left; reflexivity|].
  destruct (promise_all (p :: ps)) as [e|rs]; [left; reflexivity|].
  right. exists rs. auto.
Qed.

(** Claim C8.  The aggregated collection of a fetch cycle is non-increasing
    in [updatedAt]: for positions [i < j], the entity at [i] was updated no
    earlier than the entity at [j]. *)
Theorem fetchData_sorted_desc (s : AppSettings) (gh : Transport GhBody)
    (gl : Transport GlBody) (i j : nat) (dflt : UnifiedPullRequest) :
  (i < j < length (data (fetchData s gh gl)))%nat ->
  (updatedAt (nth j (data (fetchData s gh gl)) dflt)
   <= updatedAt (nth i (data (fetchData s gh gl)) dflt))%Z.
Proof.
  intros Hij.
  destruct (fetchData_data s gh gl) as [H|[rs [H _]]]; rewrite H in *.
  - simpl in Hij. lia.
  - apply (StronglySorted_nth (fun a b => updatedAt b <= updatedAt a)%Z); auto.
    apply js_sort_sorted.
Qed.

(** Both platforms configured: the GitHub item (updated at 1000) comes
    before the GitLab one (updated at 900). *)
Lemma fetchData_sorted_desc_witness :
  let st := fetchData sample_settings (sample_gh_response [sample_gh_pr]) sample_gl_response in
  let d := sample_item false false pending pending ps_success 0 0 in
  (0 < 1 < length (data st))%nat /\
  (updatedAt (nth 1 (data st) d) <= updatedAt (nth 0 (data st) d))%Z.
Proof.
  intros st d.
  assert (H : (0 < 1 < length (data st))%nat) by (vm_compute; lia).
  split; [exact H|].
  exact (fetchData_sorted_desc sample_settings (sample_gh_response [sample_gh_pr])
           sample_gl_response 0 1 d H).
Defined.

(** ** Key uniqueness *)

Lemma has_char_app (c : ascii) (s1 s2 : string) :
  has_char c (s1 ++ s2) = has_char c s1 || has_char c s2.
Proof.
  induction s1 as [|c' s1 IH]; simpl; auto. rewrite IH. apply orb_assoc.
Qed.

Lemma string_sep_inj (c : ascii) (s1 s2 t1 t2 : string) :
  has_char c s1 = false -> has_char c s2 = false ->
  s1 ++ String c t1 = s2 ++ String c t2 -> s1 = s2 /\ t1 = t2.
Proof.
  revert s2; induction s1 as [|c1 s1 IH]; intros s2 H1 H2 Heq;
    destruct s2 as [|c2 s2]; simpl in *.
  - injection Heq as ->. auto.
  - injection Heq as -> _. rewrite Ascii.eqb_refl in H2. discriminate.
  - injection Heq as <- _. rewrite Ascii.eqb_refl in H1. discriminate.
  - injection Heq as <- Heq.
    apply orb_false_iff in H1 as [_ H1]. apply orb_false_iff in H2 as [_ H2].
    destruct (IH s2 H1 H2 Heq) as [-> ->]. auto.
Qed.

Lemma N_toString_inj (n m : N) : N_toString n = N_toString m -> n = m.
Proof.
  unfold N_toString. intros H.
  assert (Hu : N.to_uint n = N.to_uint m).
  { apply (f_equal NilEmpty.uint_of_string) in H.
    rewrite !NilEmpty.usu in H. congruence. }
  rewrite <- (DecimalN.Unsigned.of_to n), <- (DecimalN.Unsigned.of_to m), Hu.
  reflexivity.
Qed.

Lemma gh_key_inj (p1 p2 : GhPR) :
  gh_names_ok p1 -> gh_names_ok p2 -> gh_key p1 = gh_key p2 -> gh_ident p1 = gh_ident p2.
Proof.
  unfold gh_names_ok, gh_key, gh_ident. intros [Ho1 Hn1] [Ho2 Hn2] H.
  apply string_sep_inj in H as [Ho H]; auto.
  apply string_sep_inj in H as [Hn H]; auto.
  apply N_toString_inj in H. rewrite Ho, Hn, H. reflexivity.
Qed.

Lemma gh_key_has_slash (pr : GhPR) : has_char "/" (gh_key pr) = true.
Proof.
  unfold gh_key. rewrite has_char_app. simpl. rewrite orb_true_r. reflexivity.
Qed.

Lemma gl_key_no_slash (mr : GlMR) : gl_names_ok mr -> has_char "/" (gl_key_str mr) = false.
Proof.
  unfold gl_names_ok, gl_key_str. destruct (project mr) as [prj|]; [|reflexivity].
  intros [Hp Hi]. rewrite has_char_app. simpl. rewrite Hp, Hi. reflexivity.
Qed.

Lemma mapGithubToUnified_key (pr : GhPR) (cur : string) (u : UnifiedPullRequest) :
  mapGithubToUnified pr cur = inr u -> uniqueKey u = gh_key pr.
Proof.
  unfold mapGithubToUnified. destruct (gh_author pr); [|discriminate].
  destruct (gh_replay pr). intros H. injection H as <-. reflexivity.
Qed.

Lemma mapM_inv {A B} (f : A -> Exc B) (l : list A) (ys : list B) :
  mapM f l = inr ys -> Forall2 (fun x y => f x = inr y) l ys.
Proof.
  revert ys; induction l as [|x l IH]; simpl; intros ys H.
  - injection H as <-. constructor.
  - destruct (f x) as [e|y] eqn:Hf; [discriminate|]. simpl in H.
    destruct (mapM f l) as [e|ys'] eqn:Hl; [discriminate|]. simpl in H.
    injection H as <-. constructor; auto.
Qed.

Lemma fetchGithubPRs_keys (tok user : string) (tr : Transport GhBody)
    (l : list UnifiedPullRequest) :
  fetchGithubPRs tok user tr = inr l -> map uniqueKey l = map gh_key (gh_response_nodes tr).
Proof.
  unfold fetchGithubPRs, gh_response_nodes.
  destruct tr as [|st [json|]]; try discriminate.
  destruct (gh_errors json); [discriminate|].
  destruct (gh_nodes json) as [nodes|]; [|discriminate]. simpl.
  intros H. apply mapM_inv in H.
  induction H as [|pr u ns us Hpr _ IH]; simpl; auto.
  rewrite (mapGithubToUnified_key _ _ _ Hpr), IH. reflexivity.
Qed.

Lemma NoDup_map_inj_on {A B C} (f : A -> B) (g : A -> C) (l : list A) :
  NoDup (map g l) ->
  (forall x y, In x l -> In y l -> f x = f y -> g x = g y) ->
  NoDup (map f l).
Proof.
  induction l as [|x l IH]; simpl; intros Hnd Hinj; constructor.
  - inversion Hnd as [|? ? Hnin _]; subst. intros Hin.
    apply in_map_iff in Hin as [y [Hy Hyl]]. apply Hnin.
    rewrite (Hinj x y (or_introl eq_refl) (or_intror Hyl) (eq_sym Hy)).
    apply in_map. exact Hyl.
  - inversion Hnd; subst. apply IH; auto.
Qed.

Lemma first_seen_keys_In (k : string) (l : list GlMR) :
  In k (first_seen_keys l) -> exists mr, In mr l /\ gl_key_str mr = k.
Proof.
  unfold first_seen_keys.
  assert (H : forall acc, In k (fold_left (fun acc mr => set_add (gl_key_str mr) acc) l acc) ->
            In k acc \/ exists mr, In mr l /\ gl_key_str mr = k).
  { induction l as [|mr l IH]; simpl; intros acc Hin; auto.
    apply IH in Hin as [Hin|[mr' [H1 H2]]]; [|right; eauto].
    apply set_has_In in Hin. rewrite set_has_set_add in Hin.
    apply orb_true_iff in Hin as [Hin|Hin].
    - apply String.eqb_eq in Hin. right. eauto.
    - left. apply set_has_In. exact Hin. }
  intros Hin. apply H in Hin as [[]|Hin]. exact Hin.
Qed.

Lemma addList_fold_inl (l : list GlMR) (e : string) :
  fold_left (fun acc mr => m <- acc ;; k <- gl_key mr ;; ret (map_set k mr m))
    l (inl e) = inl e.
Proof. induction l as [|mr l IH]; simpl; auto. Qed.

Lemma addList_fail (o : option (list GlMR)) (m : list (string * GlMR)) :
  forallb has_project (opt_list o) = false -> exists e, addList m o = inl e.
Proof.
  destruct o as [l|]; simpl; [|discriminate].
  revert m; induction l as [|mr l IH]; simpl; intros m H; [discriminate|].
  unfold has_project, gl_key in *. destruct (project mr) as [prj|]; simpl in *.
  - apply IH. exact H.
  - rewrite addList_fold_inl. eauto.
Qed.

Lemma gl_try_fail (c : string) (st : Z) (json : GlBody) (cu : GlCurrentUser) :
  gl_errors json = None -> currentUser json = Some cu ->
  forallb has_project (gl_all_mrs cu) = false ->
  exists e, fetchGitlab_try c (Response st (Some json)) = inl e.
Proof.
  intros He Hc Hp. simpl. rewrite He, Hc.
  unfold gl_all_mrs in Hp. rewrite !forallb_app in Hp.
  destruct (forallb has_project (opt_list (authoredMergeRequests cu))) eqn:Ha.
  - rewrite (addList_ok _ _ Ha). simpl.
    destruct (forallb has_project (opt_list (assignedMergeRequests cu))) eqn:Hb.
    + rewrite (addList_ok _ _ Hb). simpl. simpl in Hp.
      destruct (addList_fail (reviewRequestedMergeRequests cu)
                  (fold_left dedup_step (opt_list (assignedMergeRequests cu))
                     (fold_left dedup_step (opt_list (authoredMergeRequests cu)) [])) Hp)
        as [e He']. rewrite He'. simpl. eauto.
    + destruct (addList_fail (assignedMergeRequests cu)
                  (fold_left dedup_step (opt_list (authoredMergeRequests cu)) []) Hb)
        as [e He']. rewrite He'. simpl. eauto.
  - destruct (addList_fail (authoredMergeRequests cu) [] Ha) as [e He']. rewrite He'. simpl. eauto.
Qed.

Lemma fetchGitlab_keys (host tok : string) (tr : Transport GlBody) (l : list UnifiedPullRequest) :
  fetchGitlabMRs host tok tr = inr l ->
  NoDup (map uniqueKey l) /\
  (forall u, In u l -> exists mr, In mr (gl_response_mrs tr) /\ uniqueKey u = gl_key_str mr).
Proof.
  intros H.
  assert (Hempty : l = [] -> NoDup (map uniqueKey l) /\
            (forall u, In u l -> exists mr, In mr (gl_response_mrs tr) /\
                                            uniqueKey u = gl_key_str mr)).
  { intros ->. split; [constructor|intros u []]. }
  destruct tr as [|st [json|]].
  { apply Hempty. unfold fetchGitlabMRs, fetchGitlab_try, ret, throw in H. simpl in H. congruence. }
  2:{ apply Hempty. unfold fetchGitlabMRs, fetchGitlab_try, ret, throw in H. simpl in H. congruence. }
  destruct (gl_errors json) as [es|] eqn:He.
  { apply Hempty. unfold fetchGitlabMRs, fetchGitlab_try, ret, throw in H. simpl in H. rewrite He in H.
    destruct es; simpl in H; congruence. }
  destruct (currentUser json) as [cu|] eqn:Hc.
  2:{ apply Hempty. unfold fetchGitlabMRs, fetchGitlab_try, ret, throw in H. simpl in H. rewrite He, Hc in H. congruence. }
  destruct (forallb has_project (gl_all_mrs cu)) eqn:Hp.
  - destruct (gl_fetch_ok host tok st json cu He Hc Hp) as [out [Hout [_ Hkeys]]].
    rewrite Hout in H. injection H as <-. split.
    + rewrite Hkeys. apply first_seen_keys_nodup.
    + intros u Hu. simpl. rewrite Hc.
      assert (Hk : In (uniqueKey u) (first_seen_keys (gl_all_mrs cu))).
      { rewrite <- Hkeys. apply in_map. exact Hu. }
      apply first_seen_keys_In in Hk as [mr [Hmr Hk]]. eauto.
  - apply Hempty.
    destruct (gl_try_fail (strip_trailing_slash host) st json cu He Hc Hp) as [e Hf].
    unfold fetchGitlabMRs in H. rewrite Hf in H. unfold ret in H. congruence.
Qed.

Lemma sort_insert_perm {A} (cmp : A -> A -> Z) (x : A) (l : list A) :
  Permutation (sort_insert cmp x l) (x :: l).
Proof.
  induction l as [|y l IH]; simpl; auto.
  destruct (0 <? cmp x y)%Z; auto.
  etransitivity; [apply perm_skip; exact IH|]. apply perm_swap.
Qed.

Lemma js_sort_perm {A} (cmp : A -> A -> Z) (l : list A) : Permutation (js_sort cmp l) l.
Proof.
  induction l as [|x l IH]; simpl; auto.
  etransitivity; [apply sort_insert_perm|]. apply perm_skip. exact IH.
Qed.

Lemma keys_disjoint_nodup (l1 l2 : list UnifiedPullRequest) :
  NoDup (map uniqueKey l1) -> NoDup (map uniqueKey l2) ->
  (forall u, In u l1 -> has_char "/" (uniqueKey u) = true) ->
  (forall u, In u l2 -> has_char "/" (uniqueKey u) = false) ->
  NoDup (map uniqueKey (List.app l1 l2)).
Proof.
  intros H1 H2 S1 S2. rewrite map_app. apply NoDup_app; auto.
  intros k Hk1 Hk2.
  apply in_map_iff in Hk1 as [u1 [<- Hu1]]. apply in_map_iff in Hk2 as [u2 [Hk Hu2]].
  specialize (S1 u1 Hu1). specialize (S2 u2 Hu2). congruence.
Qed.

(** Claim C5.  Within one fetch cycle the aggregated collection has
    pairwise distinct [uniqueKey]s, provided the GitHub search response lists
    each pull request (owner, repository, number) once and names follow the
    platforms' rules (a GitHub login has no ['/'], a repository name no
    ['#']; a GitLab project path and an iid have no ['/']).  GitHub keys
    [owner/repo#number] are injective under these rules; the GitLab adapter
    keeps one entity per [path#iid] key; a GitHub key always contains ['/']
    and a GitLab key never does, so the two sources cannot collide; sorting
    permutes. *)
Theorem fetchData_uniqueKeys_distinct (s : AppSettings) (gh : Transport GhBody)
    (gl : Transport GlBody)
    (Hgh_nd : NoDup (map gh_ident (gh_response_nodes gh)))
    (Hgh_ok : Forall gh_names_ok (gh_response_nodes gh))
    (Hgl_ok : Forall gl_names_ok (gl_response_mrs gl)) :
  NoDup (map uniqueKey (data (fetchData s gh gl))).
Proof.
  assert (GH : forall l, fetchGithubPRs (githubToken s) (githubUsername s) gh = inr l ->
            NoDup (map uniqueKey l) /\ forall u, In u l -> has_char "/" (uniqueKey u) = true).
  { intros l Hl. pose proof (fetchGithubPRs_keys _ _ _ _ Hl) as Hk. split.
    - rewrite Hk. apply NoDup_map_inj_on with (g := gh_ident); auto.
      intros x y Hx Hy. rewrite Forall_forall in Hgh_ok. apply gh_key_inj; auto.
    - intros u Hu.
      assert (Hin : In (uniqueKey u) (map gh_key (gh_response_nodes gh))).
      { rewrite <- Hk. apply in_map. exact Hu. }
      apply in_map_iff in Hin as [pr [<- _]]. apply gh_key_has_slash. }
  assert (GL : forall l, fetchGitlabMRs (gitlabHost s) (gitlabToken s) gl = inr l ->
            NoDup (map uniqueKey l) /\ forall u, In u l -> has_char "/" (uniqueKey u) = false).
  { intros l Hl. destruct (fetchGitlab_keys _ _ _ _ Hl) as [Hnd Hin]. split; auto.
    intros u Hu. destruct (Hin u Hu) as [mr [Hmr ->]]. apply gl_key_no_slash.
    rewrite Forall_forall in Hgl_ok. auto. }
  destruct (fetchData_data s gh gl) as [H|[rs [H Hall]]]; rewrite H; [constructor|].
  eapply Permutation_NoDup; [apply Permutation_map; symmetry; apply js_sort_perm|].
  destruct (fetchGithubPRs (githubToken s) (githubUsername s) gh) as [e1|l1] eqn:E1;
    destruct (fetchGitlabMRs (gitlabHost s) (gitlabToken s) gl) as [e2|l2] eqn:E2;
    destruct (nonempty (githubToken s) && nonempty (githubUsername s));
    destruct (nonempty (gitlabToken s) && nonempty (gitlabUsername s));
    simpl in Hall; unfold ret in Hall; try discriminate; injection Hall as <-; simpl;
    rewrite ?app_nil_r; try constructor.
  all: first
    [ destruct (GH _ eq_refl) as [N1 S1]; destruct (GL _ eq_refl) as [N2 S2];
      apply keys_disjoint_nodup; auto
    | apply (proj1 (GH _ eq_refl))
    | apply (proj1 (GL _ eq_refl)) ].
Qed.

(** Both platforms configured, one item from each. *)
Lemma fetchData_uniqueKeys_distinct_witness :
  NoDup (map gh_ident (gh_response_nodes (sample_gh_response [sample_gh_pr]))) /\
  Forall gh_names_ok (gh_response_nodes (sample_gh_response [sample_gh_pr])) /\
  Forall gl_names_ok (gl_response_mrs sample_gl_response) /\
  NoDup (map uniqueKey
           (data (fetchData sample_settings (sample_gh_response [sample_gh_pr])
                    sample_gl_response))).
Proof.
  assert (H1 : NoDup (map gh_ident (gh_response_nodes (sample_gh_response [sample_gh_pr]))))
    by (vm_compute; constructor; [intros []|constructor]).
  assert (H2 : Forall gh_names_ok (gh_response_nodes (sample_gh_response [sample_gh_pr])))
    by (vm_compute; repeat constructor).
  assert (H3 : Forall gl_names_ok (gl_response_mrs sample_gl_response))
    by (vm_compute; repeat constructor).
  split; [exact H1|]. split; [exact H2|]. split; [exact H3|].
  exact (fetchData_uniqueKeys_distinct sample_settings _ _ H1 H2 H3).
Defined.

(** Claim C9 (code bug).  The GitHub mapper does not default an absent
    author: on a search node whose [author] is [null] (a deleted account),
    [pr.author.login] throws, although the same node with an author maps
    fine.  The rejection propagates through [Promise.all], so a dashboard
    with both platforms configured shows an error and no data at all, the
    GitLab merge requests included. *)
Theorem gh_null_author_throws :
  (exists u, mapGithubToUnified sample_gh_pr "alice" = inr u) /\
  (exists e, mapGithubToUnified sample_gh_pr_ghost "alice" = inl e) /\
  (exists l, fetchGitlabMRs (gitlabHost sample_settings) (gitlabToken sample_settings)
               sample_gl_response = inr l /\ l <> []) /\
  data (fetchData sample_settings (sample_gh_response [sample_gh_pr_ghost])
          sample_gl_response) = [] /\
  error (fetchData sample_settings (sample_gh_response [sample_gh_pr_ghost])
           sample_gl_response) <> None.
Proof.
  split; [eexists; vm_compute; reflexivity|].
  split; [eexists; vm_compute; reflexivity|].
  split; [eexists; split; [vm_compute; reflexivity|discriminate]|].
  split; vm_compute; [reflexivity|discriminate].
Qed.

(** ** Rendering and application state *)

Lemma fetchGitlabMRs_total (host tok : string) (tr : Transport GlBody) :
  exists l, fetchGitlabMRs host tok tr = inr l.
Proof.
  unfold fetchGitlabMRs. destruct (fetchGitlab_try _ _); unfold ret; eauto.
Qed.

Lemma fetchData_shape (s : AppSettings) (gh : Transport GhBody) (gl : Transport GlBody) :
  (exists e, fetchData s gh gl = mkFetchState [] (Some e)) \/
  (exists d, fetchData s gh gl = mkFetchState d None).
Proof.
  unfold fetchData.
  destruct (List.app _ _); [right; eauto|].
  destruct (promise_all _); [left|right]; eauto.
Qed.

(** After a fetch cycle has settled, the page shows exactly one of the
    error banner, the empty (welcome) state and the sections: an error is
    never shown beside data. *)
Theorem fetch_cycle_one_panel (s : AppSettings) (gh : Transport GhBody)
    (gl : Transport GlBody) :
  (panels false (data (fetchData s gh gl)) (error (fetchData s gh gl)) = [ErrorBanner] /\
   data (fetchData s gh gl) = []) \/
  (panels false (data (fetchData s gh gl)) (error (fetchData s gh gl)) = [EmptyState] /\
   error (fetchData s gh gl) = None /\ data (fetchData s gh gl) = []) \/
  (panels false (data (fetchData s gh gl)) (error (fetchData s gh gl)) = [MainContent] /\
   error (fetchData s gh gl) = None /\ data (fetchData s gh gl) <> []).
Proof.
  destruct (fetchData_shape s gh gl) as [[e H]|[d H]]; rewrite H; simpl.
  - left. auto.
  - destruct d as [|x d]; simpl.
    + right; left. auto.
    + right; right. split; [reflexivity|]. split; [reflexivity|discriminate].
Qed.

(** A GitHub failure hides everything: when GitHub is configured and its
    fetch fails with message [e], the fetch cycle ends with the error
    ["GitHub: " ++ e] and no data, whatever GitLab returned. *)
Theorem fetchData_github_error (s : AppSettings) (gh : Transport GhBody)
    (gl : Transport GlBody) (e : string) :
  nonempty (githubToken s) && nonempty (githubUsername s) = true ->
  fetchGithubPRs (githubToken s) (githubUsername s) gh = inl e ->
  fetchData s gh gl = mkFetchState [] (Some ("GitHub: " ++ e)).
Proof.
  intros Hc He. unfold fetchData. rewrite Hc, He. simpl. reflexivity.
Qed.

Lemma fetchData_github_error_witness :
  nonempty (githubToken sample_settings) && nonempty (githubUsername sample_settings) = true /\
  fetchGithubPRs (githubToken sample_settings) (githubUsername sample_settings) NetworkError
    = inl "TypeError: Failed to fetch" /\
  fetchData sample_settings NetworkError sample_gl_response
    = mkFetchState [] (Some ("GitHub: " ++ "TypeError: Failed to fetch")).
Proof.
  split; [reflexivity|]. split; [reflexivity|].
  exact (fetchData_github_error sample_settings NetworkError sample_gl_response _
           eq_refl eq_refl).
Defined.

(** When GitHub is not configured (no token or no username), a fetch cycle
    never ends with an error: the GitLab adapter never rejects. *)
Theorem fetchData_without_github_no_error (s : AppSettings) (gh : Transport GhBody)
    (gl : Transport GlBody) :
  nonempty (githubToken s) && nonempty (githubUsername s) = false ->
  error (fetchData s gh gl) = None.
Proof.
  intros Hc. unfold fetchData. rewrite Hc. simpl.
  destruct (nonempty (gitlabToken s) && nonempty (gitlabUsername s)); simpl; [|reflexivity].
  destruct (fetchGitlabMRs_total (gitlabHost s) (gitlabToken s) gl) as [l Hl].
  rewrite Hl. reflexivity.
Qed.

Lemma fetchData_without_github_no_error_witness :
  nonempty (githubToken (mkAppSettings "" "" "glpat_token" "https://gitlab.com" "alice"))
  && nonempty (githubUsername (mkAppSettings "" "" "glpat_token" "https://gitlab.com" "alice"))
  = false /\
  error (fetchData (mkAppSettings "" "" "glpat_token" "https://gitlab.com" "alice")
           NetworkError NetworkError) = None.
Proof.
  split; [reflexivity|].
  exact (fetchData_without_github_no_error (mkAppSettings "" "" "glpat_token" "https://gitlab.com" "alice")
           NetworkError NetworkError eq_refl).
Defined.

(** The mount effect tests the tokens only, while [fetchData] needs a token
    and a username: with a GitHub token but no GitHub username, and GitLab
    not fully configured, the app neither fetches nor opens the settings
    modal, and shows the empty state.  With the default settings the
    modal opens. *)
Theorem mount_token_without_username (s : AppSettings) (gh : Transport GhBody)
    (gl : Transport GlBody) :
  nonempty (githubToken s) = true -> nonempty (githubUsername s) = false ->
  nonempty (gitlabToken s) && nonempty (gitlabUsername s) = false ->
  mount s gh gl = (false, mkFetchState [] None) /\
  panels false [] None = [EmptyState] /\
  mount DEFAULT_SETTINGS gh gl = (true, mkFetchState [] None).
Proof.
  intros Ht Hu Hl. unfold mount, fetchData. rewrite Ht, Hu, Hl. simpl.
  repeat split.
Qed.

Lemma mount_token_without_username_witness :
  let s := mkAppSettings "ghp_token" "" "" "https://gitlab.com" "" in
  nonempty (githubToken s) = true /\ nonempty (githubUsername s) = false /\
  nonempty (gitlabToken s) && nonempty (gitlabUsername s) = false /\
  mount s NetworkError NetworkError = (false, mkFetchState [] None).
Proof.
  intros s.
  assert (H1 : nonempty (githubToken s) = true) by reflexivity.
  assert (H2 : nonempty (githubUsername s) = false) by reflexivity.
  assert (H3 : nonempty (gitlabToken s) && nonempty (gitlabUsername s) = false)
    by reflexivity.
  split; [exact H1|]. split; [exact H2|]. split; [exact H3|].
  exact (proj1 (mount_token_without_username s NetworkError NetworkError H1 H2 H3)).
Defined.

Lemma bucket_filter (d : list UnifiedPullRequest) (bs : Buckets) (b : Bucket) :
  bucket (fold_left (fun bs pr =>
            match categorize pr with Some b => push b pr bs | None => bs end) d bs) b
  = List.app (bucket bs b) (filter (in_bucket b) d).
Proof.
  revert bs; induction d as [|x d IH]; intros bs; simpl.
  - rewrite app_nil_r. reflexivity.
  - rewrite IH. unfold in_bucket.
    destruct (categorize x) as [b'|]; [|reflexivity].
    destruct bs as [r rr y w ay ao].
    destruct b', b; simpl; rewrite <- ?app_assoc; reflexivity.
Qed.

Lemma StronglySorted_filter {A} (R : A -> A -> Prop) (f : A -> bool) (l : list A) :
  StronglySorted R l -> StronglySorted R (filter f l).
Proof.
  induction l as [|x l IH]; simpl; intros H; [constructor|].
  apply StronglySorted_inv in H as [Hs Hx].
  destruct (f x); auto. constructor; auto.
  apply Forall_forall. intros y Hy. apply filter_In in Hy as [Hy _].
  rewrite Forall_forall in Hx. auto.
Qed.

(** Every section lists its rows newest first: in each bucket of the
    classifier applied to the fetched collection, a row at a later position
    was updated no later than a row at an earlier one. *)
Theorem sections_sorted_desc (s : AppSettings) (gh : Transport GhBody)
    (gl : Transport GlBody) (b : Bucket) (i j : nat) (dflt : UnifiedPullRequest) :
  (i < j < length (bucket (sections (data (fetchData s gh gl))) b))%nat ->
  (updatedAt (nth j (bucket (sections (data (fetchData s gh gl))) b) dflt)
   <= updatedAt (nth i (bucket (sections (data (fetchData s gh gl))) b) dflt))%Z.
Proof.
  unfold sections. rewrite bucket_filter. destruct b; simpl;
  apply (StronglySorted_nth (fun a b => updatedAt b <= updatedAt a)%Z);
  apply StronglySorted_filter;
  destruct (fetchData_data s gh gl) as [H|[rs [H _]]]; rewrite H;
  solve [constructor | apply js_sort_sorted].
Qed.

Lemma sections_sorted_desc_witness :
  let st := fetchData sample_settings (sample_gh_response [sample_gh_pr])
              (Response 200%Z (Some (sample_gl_body [sample_gl_mr "7" "Fix" 900%Z;
                                                     sample_gl_mr "8" "Docs" 1200%Z] []))) in
  let d := sample_item false false pending pending ps_success 0 0 in
  (0 < 1 < length (bucket (sections (data st)) returned))%nat /\
  (updatedAt (nth 1 (bucket (sections (data st)) returned) d)
   <= updatedAt (nth 0 (bucket (sections (data st)) returned) d))%Z.
Proof.
  intros st d.
  assert (H : (0 < 1 < length (bucket (sections (data st)) returned))%nat)
    by (vm_compute; lia).
  split; [exact H|].
  exact (sections_sorted_desc _ _ _ returned 0 1 d H).
Defined.

(** A row in "Waiting for approvals" always shows its given-approvals
    count in orange (fewer than required). *)
Theorem waiting_for_approvals_orange (d : list UnifiedPullRequest) (pr : UnifiedPullRequest) :
  In pr (bucket (sections d) waitingForApprovals) -> approvals_class pr = orange_class.
Proof.
  rewrite sections_bucket. intros [_ H]. unfold categorize in H. unfold approvals_class.
  destruct (isAuthor pr && _); [discriminate|].
  destruct (isReviewer pr && _); [discriminate|].
  destruct (isReviewer pr && _); [discriminate|].
  destruct (isAuthor pr && _); [discriminate|].
  destruct (isAuthor pr && (given (approvals pr) <? required (approvals pr))%nat) eqn:E;
    [|destruct (isAuthor pr); discriminate].
  apply andb_true_iff in E as [_ E]. apply Nat.ltb_lt in E.
  destruct (Nat.leb_spec (required (approvals pr)) (given (approvals pr))); [lia|].
  reflexivity.
Qed.

Lemma waiting_for_approvals_orange_witness :
  let it := sample_item true false pending pending ps_success 0 2 in
  In it (bucket (sections [it]) waitingForApprovals) /\ approvals_class it = orange_class.
Proof.
  intros it.
  assert (H : In it (bucket (sections [it]) waitingForApprovals)) by (vm_compute; left; reflexivity).
  split; [exact H|]. exact (waiting_for_approvals_orange [it] it H).
Defined.

(** The relative-time cell of a row: under an hour old it shows whole
    minutes (0 to 59), under a day whole hours (1 to 23), both in green;
    under a week whole days (1 to 6) in yellow; older, whole days (7 or
    more) in red. *)
Theorem getRelativeTime_bands (now date : Z) :
  ((0 <= now - date < 3600000)%Z -> exists m, (0 <= m < 60)%Z /\
     getRelativeTime now date = mkRelativeTime (Z_toString m ++ "m") green_class) /\
  ((3600000 <= now - date < 86400000)%Z -> exists h, (1 <= h < 24)%Z /\
     getRelativeTime now date = mkRelativeTime (Z_toString h ++ "h") green_class) /\
  ((86400000 <= now - date < 604800000)%Z -> exists d, (1 <= d < 7)%Z /\
     getRelativeTime now date = mkRelativeTime (Z_toString d ++ "d") yellow_class) /\
  ((604800000 <= now - date)%Z -> exists d, (7 <= d)%Z /\
     getRelativeTime now date = mkRelativeTime (Z_toString d ++ "d") red_class).
Proof.
  unfold getRelativeTime. set (x := (now - date)%Z).
  repeat split; intros H.
  - exists (x / 60000)%Z. split.
    + split; [apply Z.div_pos; lia|apply Z.div_lt_upper_bound; lia].
    + replace (x <? 3600000)%Z with true by (symmetry; apply Z.ltb_lt; lia). reflexivity.
  - exists (x / 3600000)%Z. split.
    + split; [apply Z.div_le_lower_bound; lia|apply Z.div_lt_upper_bound; lia].
    + replace (x <? 3600000)%Z with false by (symmetry; apply Z.ltb_ge; lia).
      replace (x <? 86400000)%Z with true by (symmetry; apply Z.ltb_lt; lia). reflexivity.
  - exists (x / 86400000)%Z. split.
    + split; [apply Z.div_le_lower_bound; lia|apply Z.div_lt_upper_bound; lia].
    + replace (x <? 3600000)%Z with false by (symmetry; apply Z.ltb_ge; lia).
      replace (x <? 86400000)%Z with false by (symmetry; apply Z.ltb_ge; lia).
      replace (x <? 604800000)%Z with true by (symmetry; apply Z.ltb_lt; lia). reflexivity.
  - exists (x / 86400000)%Z. split.
    + apply Z.div_le_lower_bound; lia.
    + replace (x <? 3600000)%Z with false by (symmetry; apply Z.ltb_ge; lia).
      replace (x <? 86400000)%Z with false by (symmetry; apply Z.ltb_ge; lia).
      replace (x <? 604800000)%Z with false by (symmetry; apply Z.ltb_ge; lia). reflexivity.
Qed.

(** A date in the future (a clock ahead of the local one) is shown as a
    negative number of minutes, in green. *)
Theorem getRelativeTime_future (now date : Z) :
  (now < date)%Z ->
  exists k, (0 < k)%N /\
    getRelativeTime now date = mkRelativeTime ("-" ++ N_toString k ++ "m") green_class.
Proof.
  intros H. unfold getRelativeTime.
  set (x := (now - date)%Z).
  assert (Hq : (x / 60000 < 0)%Z) by (apply Z.div_lt_upper_bound; lia).
  exists (Z.to_N (- (x / 60000))). split; [lia|].
  replace (x <? 3600000)%Z with true by (symmetry; apply Z.ltb_lt; lia).
  unfold Z_toString. replace (x / 60000 <? 0)%Z with true by (symmetry; apply Z.ltb_lt; lia).
  reflexivity.
Qed.

Lemma getRelativeTime_future_witness :
  (1000 < 61000)%Z /\ rt_text (getRelativeTime 1000 61000) = "-1m" /\
  exists k, (0 < k)%N /\
    getRelativeTime 1000 61000 = mkRelativeTime ("-" ++ N_toString k ++ "m") green_class.
Proof.
  split; [lia|]. split; [vm_compute; reflexivity|].
  exact (getRelativeTime_future 1000 61000 ltac:(lia)).
Defined.

Lemma getRelativeTime_bands_witness :
  rt_text (getRelativeTime 7200000 0) = "2h" /\
  exists h, (1 <= h < 24)%Z /\
    getRelativeTime 7200000 0 = mkRelativeTime (Z_toString h ++ "h") green_class.
Proof.
  split; [vm_compute; reflexivity|].
  apply (proj1 (proj2 (getRelativeTime_bands 7200000 0))). lia.
Defined.

(** ** The GitHub mapper *)

Lemma opt_eqb_spec (o : option string) (s : string) : opt_eqb o s = true <-> o = Some s.
Proof.
  destruct o as [s'|]; simpl; [|split; discriminate].
  rewrite String.eqb_eq. split; congruence.
Qed.

Lemma fold_add_mono {A} (f : A -> option string) (l : list A) (acc : list string) (x : string) :
  set_has x acc = true ->
  set_has x (fold_left (fun acc r => match f r with Some lg => set_add lg acc | None => acc end)
               l acc) = true.
Proof.
  revert acc; induction l as [|r l IH]; simpl; intros acc H; auto.
  apply IH. destruct (f r); auto. rewrite set_has_set_add, H. apply orb_true_r.
Qed.

Lemma fold_add_In {A} (f : A -> option string) (l : list A) (acc : list string)
    (r : A) (x : string) :
  In r l -> f r = Some x ->
  set_has x (fold_left (fun acc r => match f r with Some lg => set_add lg acc | None => acc end)
               l acc) = true.
Proof.
  revert acc; induction l as [|r' l IH]; simpl; intros acc Hin Hf; [contradiction|].
  destruct Hin as [<-|Hin]; auto.
  apply fold_add_mono. rewrite Hf, set_has_set_add, String.eqb_refl. reflexivity.
Qed.

Lemma fold_add_inv {A} (f : A -> option string) (l : list A) (acc : list string) (x : string) :
  set_has x (fold_left (fun acc r => match f r with Some lg => set_add lg acc | None => acc end)
               l acc) = true ->
  set_has x acc = true \/ exists r, In r l /\ f r = Some x.
Proof.
  revert acc; induction l as [|r l IH]; simpl; intros acc H; auto.
  apply IH in H as [H|[r' [H1 H2]]]; [|right; eauto].
  destruct (f r) as [lg|] eqn:Hf; auto.
  rewrite set_has_set_add in H. apply orb_true_iff in H as [H|H]; auto.
  apply String.eqb_eq in H. subst. right. eauto.
Qed.

Lemma fold_add_nodup {A} (f : A -> option string) (l : list A) (acc : list string) :
  NoDup acc ->
  NoDup (fold_left (fun acc r => match f r with Some lg => set_add lg acc | None => acc end)
           l acc).
Proof.
  revert acc; induction l as [|r l IH]; simpl; intros acc H; auto.
  apply IH. destruct (f r); auto. apply set_add_nodup. exact H.
Qed.

(** A GitHub pull request is "approved" overall exactly when GitHub's
    [reviewDecision] is [APPROVED]: the fallback that counts approvers also
    requires [reviewDecision === 'APPROVED'], so it never fires. *)
Theorem gh_overall_approved_iff (pr : GhPR) (cur : string) (u : UnifiedPullRequest) :
  mapGithubToUnified pr cur = inr u ->
  (overallReviewState u = approved <-> reviewDecision pr = Some "APPROVED").
Proof.
  unfold mapGithubToUnified. destruct (gh_author pr) as [a|]; [|discriminate].
  destruct (gh_replay pr) as [latest cl0]. intros H. injection H as <-. simpl.
  rewrite <- opt_eqb_spec.
  destruct (opt_eqb (reviewDecision pr) "APPROVED"); [split; auto|].
  rewrite andb_false_r.
  destruct (opt_eqb (reviewDecision pr) "CHANGES_REQUESTED");
    [split; discriminate|].
  destruct (0 <? _)%nat; split; discriminate.
Qed.

Lemma gh_overall_approved_iff_witness :
  exists u, mapGithubToUnified sample_gh_pr "alice" = inr u /\
    overallReviewState u <> approved /\ reviewDecision sample_gh_pr <> Some "APPROVED".
Proof.
  destruct (mapGithubToUnified sample_gh_pr "alice") as [e|u] eqn:E.
  { vm_compute in E. discriminate. }
  exists u. split; [reflexivity|]. split; [|discriminate].
  rewrite (gh_overall_approved_iff _ _ _ E). discriminate.
Defined.

(** A GitHub pull request on which the current user is (re-)requested as a
    reviewer has them as a reviewer with their own state [pending], so it
    is classified "Review requested", unless it is their own pull request
    that was returned to them. *)
Theorem gh_requested_user_review_requested (pr : GhPR) (cur : string) (u : UnifiedPullRequest) :
  mapGithubToUnified pr cur = inr u -> cur <> "" ->
  is_requested (gh_requestedReviewers pr) cur = true ->
  isReviewer u = true /\ myReviewState u = pending /\
  (categorize u = Some returned \/ categorize u = Some reviewRequested).
Proof.
  intros H Hne Hreq.
  assert (Hf : isReviewer u = true /\ myReviewState u = pending).
  { revert H. unfold mapGithubToUnified. destruct (gh_author pr) as [a|]; [|discriminate].
    destruct (gh_replay pr) as [latest cl0]. intros H. injection H as <-. simpl.
    rewrite Hreq. split; [|reflexivity].
    unfold is_requested in Hreq. apply existsb_exists in Hreq as [req [Hin Heq]].
    apply opt_eqb_spec in Heq.
    apply fold_add_mono. apply fold_add_mono.
    apply (fold_add_In (fun r => truthy (rq_login r)) _ _ req); auto.
    rewrite Heq. simpl. destruct (String.eqb_spec cur ""); [contradiction|reflexivity]. }
  destruct Hf as [Hr Hm]. split; [exact Hr|]. split; [exact Hm|].
  unfold categorize. rewrite Hr, Hm. simpl.
  destruct (isAuthor u && _); auto.
Qed.

Lemma gh_requested_user_review_requested_witness :
  exists u, mapGithubToUnified sample_gh_pr "bob" = inr u /\ "bob" <> "" /\
    is_requested (gh_requestedReviewers sample_gh_pr) "bob" = true /\
    categorize u = Some reviewRequested.
Proof.
  destruct (mapGithubToUnified sample_gh_pr "bob") as [e|u] eqn:E.
  { vm_compute in E. discriminate. }
  exists u. split; [reflexivity|]. split; [discriminate|].
  assert (Hq : is_requested (gh_requestedReviewers sample_gh_pr) "bob" = true)
    by (vm_compute; reflexivity).
  split; [exact Hq|].
  destruct (gh_requested_user_review_requested _ _ _ E ltac:(discriminate) Hq)
    as [_ [_ [Hc|Hc]]]; [|exact Hc].
  pose proof E as E'. vm_compute in E'. injection E' as <-. vm_compute in Hc. discriminate.
Defined.

(** The comments cell of a GitHub row never reads "All resolved": the
    mapper sets [resolved] to 0, so the cell is "-" without comments and
    ["0/" ++ n] with [n] comments. *)
Theorem gh_comment_cell (pr : GhPR) (cur : string) (u : UnifiedPullRequest) :
  mapGithubToUnified pr cur = inr u ->
  comment_cell u = if (totalCommentsCount pr =? 0)%nat then "-"
                   else "0/" ++ nat_toString (totalCommentsCount pr).
Proof.
  unfold mapGithubToUnified. destruct (gh_author pr) as [a|]; [|discriminate].
  destruct (gh_replay pr) as [latest cl0]. intros H. injection H as <-.
  unfold comment_cell. simpl. destruct (totalCommentsCount pr); reflexivity.
Qed.

Lemma gh_comment_cell_witness :
  exists u, mapGithubToUnified sample_gh_pr "alice" = inr u /\ comment_cell u = "0/3".
Proof.
  destruct (mapGithubToUnified sample_gh_pr "alice") as [e|u] eqn:E.
  { vm_compute in E. discriminate. }
  exists u. split; [reflexivity|]. rewrite (gh_comment_cell _ _ _ E). vm_compute. reflexivity.
Defined.

(** The reviewers of a GitHub entity have pairwise distinct usernames: a
    login that is requested, has reviewed and has commented is listed once. *)
Theorem gh_reviewers_distinct (pr : GhPR) (cur : string) (u : UnifiedPullRequest) :
  mapGithubToUnified pr cur = inr u -> NoDup (map rv_username (reviewers u)).
Proof.
  unfold mapGithubToUnified. destruct (gh_author pr) as [a|]; [|discriminate].
  destruct (gh_replay pr) as [latest cl0]. intros H. injection H as <-. simpl.
  rewrite map_map. simpl. rewrite map_id.
  apply fold_add_nodup, fold_add_nodup, fold_add_nodup. constructor.
Qed.

Lemma gh_reviewers_distinct_witness :
  exists u, mapGithubToUnified sample_gh_pr "alice" = inr u /\
    map rv_username (reviewers u) = ["bob"; "carol"; "alice"] /\
    NoDup (map rv_username (reviewers u)).
Proof.
  destruct (mapGithubToUnified sample_gh_pr "alice") as [e|u] eqn:E.
  { vm_compute in E. discriminate. }
  exists u. split; [reflexivity|]. split; [vm_compute in E; injection E as <-; reflexivity|].
  exact (gh_reviewers_distinct _ _ _ E).
Defined.

Lemma logins_with_nodup (v : Binding) (m : list (string * option Binding)) :
  NoDup (logins_with v m).
Proof.
  unfold logins_with.
  assert (H : forall acc, NoDup acc -> NoDup (fold_left (fun acc '(lg, st) =>
      match st, v with
      | Some B_APPROVED, B_APPROVED
      | Some B_CHANGES_REQUESTED, B_CHANGES_REQUESTED => set_add lg acc
      | _, _ => acc
      end) m acc)).
  { induction m as [|[k st] m IH]; simpl; intros acc Hnd; auto.
    apply IH. destruct st as [[|]|], v; auto using set_add_nodup. }
  apply H. constructor.
Qed.

Lemma replay_keys (rs : list GhReviewNode) (st : list (string * option Binding) * list string)
    (lg : string) :
  In lg (map fst (fst (fold_left replay_review rs st))) ->
  In lg (map fst (fst st)) \/ exists r, In r rs /\ actor_login (rn_author r) = Some lg.
Proof.
  revert st; induction rs as [|r rs IH]; simpl; intros st H; auto.
  apply IH in H as [H|[r' [H1 H2]]]; [|right; eauto].
  destruct st as [latest c]. unfold replay_review in H.
  destruct (actor_login (rn_author r)) as [lg'|] eqn:Ea; [|auto].
  repeat match goal with
         | H : context [if ?b then _ else _] |- _ => destruct b
         end; simpl in H; auto;
    rewrite map_set_keys in H; destruct H as [->|H]; auto;
    right; exists r; auto.
Qed.

Lemma gh_status_approved (A C Cm : list string) (req : bool) (lg : string) :
  ReviewState_eqb (gh_reviewer_status A C Cm req lg) approved = set_has lg A.
Proof.
  unfold gh_reviewer_status. destruct (set_has lg A); [reflexivity|].
  destruct (set_has lg C), req, (set_has lg Cm); reflexivity.
Qed.

Lemma same_elems_length (a b : list string) :
  NoDup a -> NoDup b -> (forall x, In x a <-> In x b) -> length a = length b.
Proof.
  intros Ha Hb H. apply Nat.le_antisymm; apply NoDup_incl_length; auto;
    intros x; apply H.
Qed.

(** The approvals of a GitHub entity: [given] is the number of listed
    reviewers whose status is [approved] (every login whose latest binding
    state is [APPROVED] is listed, and shown as approved), and [required] is
    always 1. *)
Theorem gh_approvals_count (pr : GhPR) (cur : string) (u : UnifiedPullRequest) :
  mapGithubToUnified pr cur = inr u ->
  required (approvals u) = 1%nat /\
  given (approvals u) =
    length (filter (fun r => ReviewState_eqb (status r) approved) (reviewers u)).
Proof.
  unfold mapGithubToUnified. destruct (gh_author pr) as [a|]; [|discriminate].
  destruct (gh_replay pr) as [latest cl0] eqn:Hrep. intros H. injection H as <-.
  cbn [approvals given required reviewers]. split; [reflexivity|].
  rewrite filter_map_swap, length_map.
  set (A := logins_with B_APPROVED latest).
  set (R := fold_left _ (opt_list (comments pr)) _).
  rewrite (filter_ext _ (fun lg => set_has lg A));
    [|intros x; cbn [status]; apply gh_status_approved].
  apply same_elems_length.
  - apply logins_with_nodup.
  - apply NoDup_filter. apply fold_add_nodup, fold_add_nodup, fold_add_nodup. constructor.
  - intros x. rewrite filter_In, <- !set_has_In. split; [|tauto].
    intros Hx. split; [|exact Hx].
    apply logins_with_has in Hx. apply (in_map fst) in Hx. simpl in Hx.
    assert (Hk : In x (map fst (fst (gh_replay pr)))) by (rewrite Hrep; exact Hx).
    unfold gh_replay in Hk. apply replay_keys in Hk as [Hk|[r [Hr Hl]]]; [contradiction|].
    apply fold_add_mono. apply (fold_add_In (fun r => actor_login (rn_author r)) _ _ r); auto.
Qed.

Lemma gh_approvals_count_witness :
  exists u, mapGithubToUnified sample_gh_pr_approved "alice" = inr u /\
    given (approvals u) = 2%nat /\ required (approvals u) = 1%nat /\
    length (filter (fun r => ReviewState_eqb (status r) approved) (reviewers u)) = 2%nat.
Proof.
  destruct (mapGithubToUnified sample_gh_pr_approved "alice") as [e|u] eqn:E.
  { vm_compute in E. discriminate. }
  exists u. split; [reflexivity|].
  destruct (gh_approvals_count _ _ _ E) as [Hr Hg].
  rewrite <- Hg. split; [|split; [exact Hr|]];
    vm_compute in E; injection E as <-; reflexivity.
Defined.

(** ** The GitLab mapper *)

Lemma fold_set_add_has (l acc : list string) (x : string) :
  set_has x (fold_left (fun acc u => set_add u acc) l acc) = true <->
  In x l \/ set_has x acc = true.
Proof.
  revert acc; induction l as [|y l IH]; simpl; intros acc; [tauto|].
  rewrite IH, set_has_set_add, orb_true_iff, String.eqb_eq. intuition.
Qed.

Lemma fold_set_add_nodup (l acc : list string) :
  NoDup acc -> NoDup (fold_left (fun acc u => set_add u acc) l acc).
Proof.
  revert acc; induction l as [|y l IH]; simpl; intros acc H; auto.
  apply IH, set_add_nodup, H.
Qed.

(** Without a required approval count ([approvalsRequired] absent or 0) a
    GitLab merge request is never "approved" overall, whatever its
    approvals: it never lands in "Approved by others" nor in "Waiting for
    approvals". *)
Theorem gl_no_required_approvals (mr : GlMR) (cur base : string) (u : UnifiedPullRequest) :
  js_or_nat (approvalsRequired mr) = 0%nat ->
  mapGitlabToUnified mr cur base = inr u ->
  overallReviewState u <> approved /\
  categorize u <> Some approvedByOthers /\ categorize u <> Some waitingForApprovals.
Proof.
  intros Hreq H.
  assert (Hf : overallReviewState u <> approved /\ required (approvals u) = 0%nat).
  { revert H. unfold mapGitlabToUnified.
    destruct (count_discussions (opt_list (discussions mr))) as [rc tr].
    destruct (project mr) as [prj|]; [|discriminate]. intros H. injection H as <-.
    cbn [overallReviewState approvals required]. rewrite Hreq. simpl.
    split; [|reflexivity]. destruct (existsb _ _); discriminate. }
  destruct Hf as [Ho Hq]. split; [exact Ho|].
  unfold categorize. rewrite Hq.
  replace (given (approvals u) <? 0)%nat with false by (symmetry; apply Nat.ltb_ge; lia).
  destruct (overallReviewState u); [contradiction| | |];
    destruct (isAuthor u), (isReviewer u), (myReviewState u), (pipelineStatus u);
    simpl; split; discriminate.
Qed.

Lemma gl_no_required_approvals_witness :
  let mr := mkGlMR "8" "Docs" "https://gitlab.com/g/web/-/merge_requests/8" 500%Z
              (Some (mkGlProject "Web" "web"))
              (Some (mkGlUser (Some "alice") (Some "Alice") None))
              (Some [mkGlReviewerNode "bob" "Bob" None (Some "APPROVED")])
              None (Some ["bob"]) None None None None in
  exists u, mapGitlabToUnified mr "alice" "https://gitlab.com" = inr u /\
    js_or_nat (approvalsRequired mr) = 0%nat /\ given (approvals u) = 1%nat /\
    categorize u = Some yourPRs /\ categorize u <> Some approvedByOthers.
Proof.
  intros mr.
  destruct (mapGitlabToUnified mr "alice" "https://gitlab.com") as [e|u] eqn:E.
  { vm_compute in E. discriminate. }
  exists u. split; [reflexivity|]. split; [reflexivity|].
  pose proof (gl_no_required_approvals mr _ _ _ eq_refl E) as [_ [Hc _]].
  vm_compute in E. injection E as <-. split; [reflexivity|]. split; [reflexivity|exact Hc].
Defined.

Lemma filter_and_length_le {A} (f g : A -> bool) (l : list A) :
  (length (filter (fun x => f x && g x) l) <= length (filter f l))%nat.
Proof.
  induction l as [|a l IH]; simpl; [lia|].
  destruct (f a), (g a); simpl; lia.
Qed.

Lemma filter_and_length_eq {A} (f g : A -> bool) (l : list A) :
  length (filter (fun x => f x && g x) l) = length (filter f l) <->
  (forall x, In x l -> f x = true -> g x = true).
Proof.
  induction l as [|a l IH]; simpl; [split; [tauto|reflexivity]|].
  destruct (f a) eqn:Ef, (g a) eqn:Eg; simpl.
  - rewrite Nat.succ_inj_wd, IH. split.
    + intros H x [<-|Hx]; auto.
    + intros H x Hx. apply H. auto.
  - split.
    + intros H. pose proof (filter_and_length_le f g l). lia.
    + intros H. rewrite (H a (or_introl eq_refl) Ef) in Eg. discriminate.
  - rewrite IH. split.
    + intros H x [<-|Hx]; [congruence|auto].
    + intros H x Hx. apply H. auto.
  - rewrite IH. split.
    + intros H x [<-|Hx]; [congruence|auto].
    + intros H x Hx. apply H. auto.
Qed.

(** The comments cell of a GitLab row reads "All resolved" exactly when the
    merge request has a resolvable discussion and every resolvable
    discussion is resolved; non-resolvable discussions play no part. *)
Theorem gl_all_resolved_iff (mr : GlMR) (cur base : string) (u : UnifiedPullRequest) :
  mapGitlabToUnified mr cur base = inr u ->
  (comment_cell u = "All resolved" <->
   (exists d, In d (opt_list (discussions mr)) /\ d_resolvable d = true) /\
   (forall d, In d (opt_list (discussions mr)) -> d_resolvable d = true ->
              d_resolved d = true)).
Proof.
  unfold mapGitlabToUnified. rewrite count_discussions_spec.
  destruct (project mr) as [prj|]; [|discriminate]. intros H. injection H as <-.
  unfold comment_cell. cbn [commentStats resolved total].
  set (ds := opt_list (discussions mr)).
  destruct (length (filter d_resolvable ds) =? 0)%nat eqn:E0.
  - apply Nat.eqb_eq, length_zero_iff_nil in E0. split; [discriminate|].
    intros [[d [Hd Hr]] _]. assert (Hin : In d (filter d_resolvable ds))
      by (apply filter_In; auto). rewrite E0 in Hin. contradiction.
  - assert (Hex : exists d, In d ds /\ d_resolvable d = true).
    { destruct (filter d_resolvable ds) as [|d l] eqn:Ef; [discriminate|].
      exists d. apply filter_In. rewrite Ef. left. reflexivity. }
    rewrite <- (filter_and_length_eq d_resolvable d_resolved ds).
    destruct (length (filter (fun d => d_resolvable d && d_resolved d) ds)
                =? length (filter d_resolvable ds))%nat eqn:E1.
    + apply Nat.eqb_eq in E1. split; [intros _; split; [exact Hex|exact E1]|reflexivity].
    + apply Nat.eqb_neq in E1. split; [|tauto].
      intros Hs. assert (Hc : has_char "/" "All resolved" = true)
        by (rewrite <- Hs, !has_char_app; simpl; rewrite orb_true_r; reflexivity).
      discriminate.
Qed.

Lemma gl_all_resolved_iff_witness :
  exists u, mapGitlabToUnified (sample_gl_mr "7" "Fix" 900%Z) "alice" "https://gitlab.com"
              = inr u /\ comment_cell u = "1/2" /\
    ~ (forall d, In d (opt_list (discussions (sample_gl_mr "7" "Fix" 900%Z))) ->
                 d_resolvable d = true -> d_resolved d = true).
Proof.
  destruct (mapGitlabToUnified (sample_gl_mr "7" "Fix" 900%Z) "alice" "https://gitlab.com")
    as [e|u] eqn:E.
  { vm_compute in E. discriminate. }
  exists u. split; [reflexivity|].
  pose proof (gl_all_resolved_iff _ _ _ _ E) as Hiff.
  assert (Hu : comment_cell u = "1/2") by (vm_compute in E; injection E as <-; reflexivity).
  split; [exact Hu|].
  intros Hall. assert (Hc : comment_cell u = "All resolved") by (apply Hiff; split;
    [exists (mkGlDiscussion true true); simpl; auto | exact Hall]).
  rewrite Hu in Hc. discriminate.
Defined.

(** A user listed in [approvedBy] never has the own state [pending] on a
    GitLab merge request, whatever their reviewer state, so it is never in
    their "Review requested" list. *)
Theorem gl_approver_not_requested (mr : GlMR) (cur base : string) (u : UnifiedPullRequest) :
  In cur (opt_list (approvedBy mr)) ->
  mapGitlabToUnified mr cur base = inr u ->
  myReviewState u <> pending /\ categorize u <> Some reviewRequested.
Proof.
  intros Hin H.
  assert (Hm : myReviewState u <> pending).
  { revert H. unfold mapGitlabToUnified.
    destruct (count_discussions (opt_list (discussions mr))) as [rc tr].
    destruct (project mr) as [prj|]; [|discriminate]. intros H. injection H as <-.
    cbn [myReviewState].
    rewrite (proj2 (fold_set_add_has (opt_list (approvedBy mr)) [] cur) (or_introl Hin)).
    destruct (find _ _) as [r|]; [destruct (status r)|]; discriminate. }
  split; [exact Hm|].
  unfold categorize.
  destruct (myReviewState u); [| |contradiction|];
    destruct (isAuthor u), (isReviewer u), (overallReviewState u), (pipelineStatus u);
    simpl; try discriminate;
    destruct (given (approvals u) <? required (approvals u))%nat; discriminate.
Qed.

Lemma gl_approver_not_requested_witness :
  let mr := mkGlMR "9" "Bump" "https://gitlab.com/g/web/-/merge_requests/9" 700%Z
              (Some (mkGlProject "Web" "web"))
              (Some (mkGlUser (Some "alice") (Some "Alice") None))
              (Some [mkGlReviewerNode "carol" "Carol" None (Some "UNREVIEWED")])
              None (Some ["carol"]) (Some 1%nat) None None None in
  exists u, mapGitlabToUnified mr "carol" "https://gitlab.com" = inr u /\
    In "carol" (opt_list (approvedBy mr)) /\
    myReviewState u = approved /\ categorize u = Some approvedByYou.
Proof.
  intros mr.
  destruct (mapGitlabToUnified mr "carol" "https://gitlab.com") as [e|u] eqn:E.
  { vm_compute in E. discriminate. }
  exists u. split; [reflexivity|].
  assert (Hin : In "carol" (opt_list (approvedBy mr))) by (simpl; auto).
  split; [exact Hin|].
  pose proof (gl_approver_not_requested mr _ _ _ Hin E) as [_ _].
  vm_compute in E. injection E as <-. split; reflexivity.
Defined.

(** The given approvals of a GitLab entity count the distinct usernames of
    [approvedBy]: a repeated username counts once. *)
Theorem gl_given_distinct_approvers (mr : GlMR) (cur base : string) (u : UnifiedPullRequest) :
  mapGitlabToUnified mr cur base = inr u ->
  given (approvals u) = length (nodup string_dec (opt_list (approvedBy mr))).
Proof.
  unfold mapGitlabToUnified.
  destruct (count_discussions (opt_list (discussions mr))) as [rc tr].
  destruct (project mr) as [prj|]; [|discriminate]. intros H. injection H as <-.
  cbn [approvals given]. apply same_elems_length.
  - apply fold_set_add_nodup. constructor.
  - apply NoDup_nodup.
  - intros x. rewrite nodup_In, <- set_has_In, fold_set_add_has. simpl. intuition discriminate.
Qed.

Lemma gl_given_distinct_approvers_witness :
  let mr := mkGlMR "10" "Fix" "https://gitlab.com/g/web/-/merge_requests/10" 800%Z
              (Some (mkGlProject "Web" "web")) None None None
              (Some ["bob"; "carol"; "bob"]) (Some 3%nat) None None None in
  exists u, mapGitlabToUnified mr "alice" "https://gitlab.com" = inr u /\
    given (approvals u) = 2%nat /\ length (opt_list (approvedBy mr)) = 3%nat.
Proof.
  intros mr.
  destruct (mapGitlabToUnified mr "alice" "https://gitlab.com") as [e|u] eqn:E.
  { vm_compute in E. discriminate. }
  exists u. split; [reflexivity|].
  rewrite (gl_given_distinct_approvers mr _ _ _ E). split; reflexivity.
Defined.

(** ** The GitLab host *)

Lemma strip_app_slash (s : string) : strip_trailing_slash (s ++ "/") = s.
Proof.
  induction s as [|c s IH]; [reflexivity|].
  destruct s as [|c' s']; [reflexivity|].
  change (String c (strip_trailing_slash (String c' s' ++ "/")) = String c (String c' s')).
  rewrite IH. reflexivity.
Qed.

Lemma strip_no_slash (s : string) : ends_with_slash s = false -> strip_trailing_slash s = s.
Proof.
  induction s as [|c s IH]; [reflexivity|].
  destruct s as [|c' s'].
  - simpl. intros H. rewrite H. reflexivity.
  - intros H. change (String c (strip_trailing_slash (String c' s')) = String c (String c' s')).
    rewrite IH; auto.
Qed.

(** A GitLab host written with or without one trailing slash gives the
    same endpoint [host/api/graphql] and the same fetched list (the host is
    also the base of relative avatar URLs). *)
Theorem gitlab_host_trailing_slash (h : string) :
  ends_with_slash h = false ->
  gitlab_endpoint (h ++ "/") = h ++ "/api/graphql" /\
  gitlab_endpoint h = h ++ "/api/graphql" /\
  (forall token tr, fetchGitlabMRs (h ++ "/") token tr = fetchGitlabMRs h token tr).
Proof.
  intros H. unfold gitlab_endpoint, fetchGitlabMRs.
  rewrite strip_app_slash, (strip_no_slash h H). repeat split.
Qed.

Lemma gitlab_host_trailing_slash_witness :
  gitlab_endpoint "https://gitlab.com/" = "https://gitlab.com/api/graphql" /\
  ends_with_slash "https://gitlab.com" = false.
Proof.
  split; [|reflexivity].
  exact (proj1 (gitlab_host_trailing_slash "https://gitlab.com" eq_refl)).
Defined.

(** ** Pipeline status *)

(** In [mapPipelineStatus] the detailed label wins: a label that mentions
    "warn" in any letter case gives [warning], whatever the status, even a
    failed pipeline. *)
Theorem pipeline_warn_label (st : option string) (l : string) :
  includes (toLowerCase l) "warn" = true -> mapPipelineStatus st (Some l) = ps_warning.
Proof.
  intros H. unfold mapPipelineStatus, js_or.
  destruct (String.eqb l "") eqn:E.
  - apply String.eqb_eq in E. subst. vm_compute in H. discriminate.
  - destruct (String.eqb (toLowerCase l) "") eqn:E2.
    + apply String.eqb_eq in E2. rewrite E2 in H. vm_compute in H. discriminate.
    + rewrite H. reflexivity.
Qed.

Lemma pipeline_warn_label_witness :
  includes (toLowerCase "Failed with WARNINGS") "warn" = true /\
  mapPipelineStatus (Some "failed") (Some "Failed with WARNINGS") = ps_warning.
Proof.
  split; [vm_compute; reflexivity|].
  apply pipeline_warn_label. vm_compute. reflexivity.
Defined.

Lemma ascii_lower_upper (c : ascii) : ascii_lower (ascii_upper c) = ascii_lower c.
Proof. destruct c as [[] [] [] [] [] [] [] []]; vm_compute; reflexivity. Qed.

Lemma ascii_upper_lower (c : ascii) : ascii_upper (ascii_lower c) = ascii_upper c.
Proof. destruct c as [[] [] [] [] [] [] [] []]; vm_compute; reflexivity. Qed.

Lemma lower_upper (s : string) : toLowerCase (toUpperCase s) = toLowerCase s.
Proof. induction s as [|c s IH]; simpl; [reflexivity|]. rewrite ascii_lower_upper, IH. reflexivity. Qed.

Lemma upper_lower (s : string) : toUpperCase (toLowerCase s) = toUpperCase s.
Proof. induction s as [|c s IH]; simpl; [reflexivity|]. rewrite ascii_upper_lower, IH. reflexivity. Qed.

Lemma js_or_upper (o : option string) :
  js_or (option_map toUpperCase o) "" = toUpperCase (js_or o "").
Proof. destruct o as [[|c s]|]; reflexivity. Qed.

Lemma js_or_lower (o : option string) :
  js_or (option_map toLowerCase o) "" = toLowerCase (js_or o "").
Proof. destruct o as [[|c s]|]; reflexivity. Qed.

(** Both pipeline mappers ignore letter case: GitLab's status and label
    may come in upper case, GitHub's rollup state in lower case. *)
Theorem pipeline_case_insensitive (st l s : option string) :
  mapPipelineStatus (option_map toUpperCase st) (option_map toUpperCase l)
    = mapPipelineStatus st l /\
  gh_pipeline (option_map toLowerCase s) = gh_pipeline s.
Proof.
  unfold mapPipelineStatus, gh_pipeline.
  rewrite !js_or_upper, !lower_upper, js_or_lower, upper_lower. split; reflexivity.
Qed.

(** ** Row keys *)

Lemma str_length_app (s t : string) : String.length (s ++ t) = (String.length s + String.length t)%nat.
Proof. induction s as [|c s IH]; simpl; auto. Qed.

Lemma suffix_github_gitlab (s1 s2 : string) : s1 ++ "github" <> s2 ++ "gitlab".
Proof.
  revert s2; induction s1 as [|c s1 IH]; intros [|c' s2]; simpl; intros H.
  - discriminate.
  - injection H as _ H. apply (f_equal String.length) in H.
    rewrite str_length_app in H. simpl in H. lia.
  - injection H as _ H. apply (f_equal String.length) in H.
    rewrite str_length_app in H. simpl in H. lia.
  - injection H as _ H. exact (IH s2 H).
Qed.

(** The row key [pr.id + pr.source] of the list identifies a pull request
    only by its number (GitHub) or iid (GitLab) and platform: two pull
    requests with the same number from different repositories get the same
    key, while a GitHub row and a GitLab row never share one. *)
Theorem row_key_collision (pr1 pr2 : GhPR) (mr1 mr2 : GlMR) (cur base : string)
    (u1 u2 v1 v2 : UnifiedPullRequest) :
  mapGithubToUnified pr1 cur = inr u1 -> mapGithubToUnified pr2 cur = inr u2 ->
  mapGitlabToUnified mr1 cur base = inr v1 -> mapGitlabToUnified mr2 cur base = inr v2 ->
  (number pr1 = number pr2 -> row_key u1 = row_key u2) /\
  (iid mr1 = iid mr2 -> row_key v1 = row_key v2) /\
  row_key u1 <> row_key v1.
Proof.
  intros H1 H2 H3 H4.
  assert (Hg : forall pr u, mapGithubToUnified pr cur = inr u ->
            row_key u = N_toString (number pr) ++ "github").
  { intros pr u. unfold mapGithubToUnified. destruct (gh_author pr) as [a|]; [|discriminate].
    destruct (gh_replay pr). intros H. injection H as <-. reflexivity. }
  assert (Hl : forall mr v, mapGitlabToUnified mr cur base = inr v ->
            row_key v = iid mr ++ "gitlab").
  { intros mr v. unfold mapGitlabToUnified.
    destruct (count_discussions (opt_list (discussions mr))).
    destruct (project mr) as [prj|]; [|discriminate]. intros H. injection H as <-. reflexivity. }
  rewrite (Hg _ _ H1), (Hg _ _ H2), (Hl _ _ H3), (Hl _ _ H4).
  split; [intros ->; reflexivity|]. split; [intros ->; reflexivity|].
  apply suffix_github_gitlab.
Qed.

Lemma row_key_collision_witness :
  let pr2 := mkGhPR 42 "Other" "https://github.com/own/lib/pull/42" 1500%Z
               (mkGhRepository "lib" "own") (Some (mkGhActor "bob" "https://avatars/bob"))
               None None None None 0 1 1 1 None in
  exists u1 u2 v, mapGithubToUnified sample_gh_pr "alice" = inr u1 /\
    mapGithubToUnified pr2 "alice" = inr u2 /\
    mapGitlabToUnified (sample_gl_mr "42" "Fix" 900%Z) "alice" "https://gitlab.com" = inr v /\
    uniqueKey u1 <> uniqueKey u2 /\ row_key u1 = row_key u2 /\ row_key u1 <> row_key v.
Proof.
  intros pr2.
  destruct (mapGithubToUnified sample_gh_pr "alice") as [e|u1] eqn:E1;
    [vm_compute in E1; discriminate|].
  destruct (mapGithubToUnified pr2 "alice") as [e|u2] eqn:E2;
    [vm_compute in E2; discriminate|].
  destruct (mapGitlabToUnified (sample_gl_mr "42" "Fix" 900%Z) "alice" "https://gitlab.com")
    as [e|v] eqn:E3; [vm_compute in E3; discriminate|].
  exists u1, u2, v. split; [reflexivity|]. split; [reflexivity|]. split; [reflexivity|].
  destruct (row_key_collision sample_gh_pr pr2 (sample_gl_mr "42" "Fix" 900%Z)
              (sample_gl_mr "42" "Fix" 900%Z) "alice" "https://gitlab.com" u1 u2 v v
              E1 E2 E3 E3) as [Hk [_ Hx]].
  split; [|split; [exact (Hk eq_refl)|exact Hx]].
  vm_compute in E1, E2. injection E1 as <-. injection E2 as <-. discriminate.
Defined.

(** ** GitLab avatars and authors *)

Lemma prefix_app (p s t : string) : String.prefix p s = true -> String.prefix p (s ++ t) = true.
Proof.
  revert s; induction p as [|a p IH]; intros s H; [destruct (s ++ t); reflexivity|].
  destruct s as [|b s]; [discriminate H|].
  simpl in H |- *. destruct (Ascii.ascii_dec a b); [apply IH, H|discriminate H].
Qed.

Lemma truthy_Some (o : option string) (s : string) : truthy o = Some s -> truthy (Some s) = Some s.
Proof.
  destruct o as [s'|]; simpl; [|discriminate].
  destruct (String.eqb s' "") eqn:E; [discriminate|]. intros [= <-]. rewrite E. reflexivity.
Qed.

(** With a base URL that starts with "http" (the GitLab host), an avatar URL
    resolved by [resolveAvatar] is empty or absolute, and resolving it again
    leaves it as it is. *)
Theorem resolveAvatar_idempotent (base : string) (u : option string) :
  startsWith base "http" = true ->
  (resolveAvatar base u = "" \/ startsWith (resolveAvatar base u) "http" = true) /\
  resolveAvatar base (Some (resolveAvatar base u)) = resolveAvatar base u.
Proof.
  intros Hb.
  assert (Hr : resolveAvatar base u = "" \/
               (startsWith (resolveAvatar base u) "http" = true /\ resolveAvatar base u <> "")).
  { unfold resolveAvatar. destruct (truthy u) as [url|] eqn:Et; [right|left; reflexivity].
    destruct (startsWith url "http") eqn:Eh.
    - split; [exact Eh|]. intros ->. apply truthy_Some in Et. discriminate Et.
    - split; [apply prefix_app, Hb|]. destruct base; [discriminate Hb|discriminate]. }
  split; [destruct Hr as [H|[H _]]; auto|].
  set (r := resolveAvatar base u) in *. clearbody r.
  destruct Hr as [->|[Hh Hne]]; [reflexivity|].
  unfold resolveAvatar, truthy. destruct (String.eqb_spec r ""); [contradiction|].
  rewrite Hh. reflexivity.
Qed.

Lemma resolveAvatar_idempotent_witness :
  startsWith "https://gitlab.com" "http" = true /\
  resolveAvatar "https://gitlab.com" (Some "/uploads/a.png") = "https://gitlab.com/uploads/a.png" /\
  resolveAvatar "https://gitlab.com" (Some "https://gitlab.com/uploads/a.png")
    = "https://gitlab.com/uploads/a.png".
Proof.
  split; [reflexivity|]. split; [reflexivity|].
  exact (proj2 (resolveAvatar_idempotent "https://gitlab.com" (Some "/uploads/a.png") eq_refl)).
Defined.

(** A GitLab merge request whose author is [null] is still mapped, unlike
    a GitHub one: the author is shown as "Unknown" with no avatar, it is
    never the current user's own, so it can only be listed as "Review
    requested" or "Approved by you". *)
Theorem gl_null_author (mr : GlMR) (cur base : string) (u : UnifiedPullRequest) :
  gl_author mr = None -> mapGitlabToUnified mr cur base = inr u ->
  isAuthor u = false /\ author u = mkUser "Unknown" "" "unknown" /\
  (forall b, categorize u = Some b -> b = reviewRequested \/ b = approvedByYou).
Proof.
  intros Ha H.
  assert (Hf : isAuthor u = false /\ author u = mkUser "Unknown" "" "unknown").
  { revert H. unfold mapGitlabToUnified.
    destruct (count_discussions (opt_list (discussions mr))).
    destruct (project mr) as [prj|]; [|discriminate]. intros H. injection H as <-.
    cbn [isAuthor author]. rewrite Ha. split; reflexivity. }
  destruct Hf as [Hi Hu]. split; [exact Hi|]. split; [exact Hu|].
  intros b. unfold categorize. rewrite Hi. simpl.
  destruct (isReviewer u && ReviewState_eqb (myReviewState u) pending);
    [intros [= <-]; auto|].
  destruct (isReviewer u && ReviewState_eqb (myReviewState u) approved);
    [intros [= <-]; auto|discriminate].
Qed.

Lemma gl_null_author_witness :
  let mr := mkGlMR "11" "Orphan" "https://gitlab.com/g/web/-/merge_requests/11" 600%Z
              (Some (mkGlProject "Web" "web")) None
              (Some [mkGlReviewerNode "alice" "Alice" None (Some "UNREVIEWED")])
              None None (Some 1%nat) None None None in
  exists u, mapGitlabToUnified mr "alice" "https://gitlab.com" = inr u /\
    gl_author mr = None /\ categorize u = Some reviewRequested /\ isAuthor u = false.
Proof.
  intros mr.
  destruct (mapGitlabToUnified mr "alice" "https://gitlab.com") as [e|u] eqn:E.
  { vm_compute in E. discriminate. }
  exists u. split; [reflexivity|]. split; [reflexivity|].
  destruct (gl_null_author mr _ _ _ eq_refl E) as [Hi _].
  split; [|exact Hi]. vm_compute in E. injection E as <-. reflexivity.
Defined.
